(** * A shallow embedding of ge_world: the point-mass and 2D peg environments

    Source files: [ge_world/amy_point_mass.py] and [ge_world/peg_2d.py].
    Numbers that the code computes with (positions, rewards, norms) are real
    numbers; the constant entries of the discrete action tables are rationals
    so that the tables can be evaluated.  The MuJoCo simulator is an external
    collaborator: it enters the step functions as section variables. *)

From Stdlib Require Import String.
From Stdlib Require Import List Bool ZArith QArith Reals Qreals Lra Lia.
Import ListNotations.

(* ------------------------------------------------------------------ *)
(** ** Python runtime helpers *)

(** The Python exceptions the modelled code can raise. *)
Inductive PyExc : Type :=
| IndexError
| AssertionError
| TypeError.

(** A call either returns a value or raises. *)
Inductive Result (A : Type) : Type :=
| Ok (v : A)
| Raise (e : PyExc).
Arguments Ok {A} v.
Arguments Raise {A} e.

(** Python list subscription [l[i]]: negative indices count from the end,
    anything outside [-len(l), len(l)) raises [IndexError]. *)
Definition py_index {A : Type} (l : list A) (i : Z) : Result A :=
  let n := Z.of_nat (length l) in
  if (0 <=? i)%Z then
    match nth_error l (Z.to_nat i) with
    | Some x => Ok x
    | None => Raise IndexError
    end
  else if (- n <=? i)%Z then
    match nth_error l (Z.to_nat (n + i)) with
    | Some x => Ok x
    | None => Raise IndexError
    end
  else Raise IndexError.

(** Python's numeric [x == 0] on the rational table entries. *)
Definition is_zeroQ (x : Q) : bool := Qeq_bool x 0.

(* ------------------------------------------------------------------ *)
(** ** Discrete action tables (constructors of both environments) *)

(** [PointMassEnv.__init__], discrete branch:
    [actions = [-.5, 0, .5]]
    [a_dict = [(a, b) for a in actions for b in actions if not (a==0 and b==0)]] *)
Definition pm_actions : list Q := [-(1#2); 0; 1#2].

Definition pm_a_dict : list (Q * Q) :=
  flat_map (fun a =>
    flat_map (fun b =>
      if negb (is_zeroQ a && is_zeroQ b) then [(a, b)] else [])
      pm_actions)
    pm_actions.

(** [Peg2DEnv.__init__], discrete branch: [actions = [-act_scale, 0, act_scale]]. *)
Definition peg_actions (act_scale : Q) : list Q := [- act_scale; 0; act_scale].

(** [id_less=True]: the triple comprehension with the all-zero filter. *)
Definition peg_a_dict_id_less (act_scale : Q) : list (Q * Q * Q) :=
  let actions := peg_actions act_scale in
  flat_map (fun a =>
    flat_map (fun b =>
      flat_map (fun c =>
        if negb (is_zeroQ a && is_zeroQ b && is_zeroQ c) then [(a, b, c)] else [])
        actions)
      actions)
    actions.

(** [id_less=False]: the triple comprehension without a filter. *)
Definition peg_a_dict_full (act_scale : Q) : list (Q * Q * Q) :=
  let actions := peg_actions act_scale in
  flat_map (fun a =>
    flat_map (fun b =>
      map (fun c => (a, b, c)) actions)
      actions)
    actions.

Definition peg_a_dict (act_scale : Q) (id_less : bool) : list (Q * Q * Q) :=
  if id_less then peg_a_dict_id_less act_scale else peg_a_dict_full act_scale.

Definition all_zero2 (t : Q * Q) : bool :=
  let '(a, b) := t in is_zeroQ a && is_zeroQ b.

Definition all_zero3 (t : Q * Q * Q) : bool :=
  let '(a, b, c) := t in is_zeroQ a && is_zeroQ b && is_zeroQ c.

(* ------------------------------------------------------------------ *)
(** ** Real-number helpers *)

Open Scope R_scope.

(** Python's [x < y] and [x == y] on floats, read as real comparisons. *)
Definition Rltb (x y : R) : bool := if Rlt_dec x y then true else false.
Definition Reqb (x y : R) : bool := if Req_EM_T x y then true else false.

(** [np.linalg.norm] of a 2-vector and of a flat vector. *)
Definition norm2 (v : R * R) : R :=
  let '(x, y) := v in sqrt (x * x + y * y).

Definition sumsq (v : list R) : R := fold_right (fun x acc => x * x + acc) 0 v.

Definition vnorm (v : list R) : R := sqrt (sumsq v).

Definition sub2 (p q : R * R) : R * R :=
  let '(px, py) := p in let '(qx, qy) := q in (px - qx, py - qy).

(** [np.sign]. *)
Definition sign (x : R) : R :=
  if Rlt_dec 0 x then 1 else if Rlt_dec x 0 then -1 else 0.

(* ------------------------------------------------------------------ *)
(** ** [Controls] (amy_point_mass.py) *)

(** [Controls.goals] is either the [(k, 2)] array drawn by the [_goals]
    property at construction, or the 2-vector that [reset_model] installs
    through [sample_goal(goals)]. *)
Inductive Goals : Type :=
| GoalRows (gs : list (R * R))
| GoalVec (g : R * R).

(** The rows the broadcast [state - goals] runs over. *)
Definition goal_rows (gs : Goals) : list (R * R) :=
  match gs with
  | GoalRows rows => rows
  | GoalVec g => [g]
  end.

Record Controls : Type := mkControls {
  k : Z;
  index : Z;
  goals : Goals
}.

(** [Controls.sample_task(index)]: with no index, [np.random.randint(0, k)]
    is drawn (the draw is an argument here); with an index, the field is
    assigned first and then [assert index < self.k]. *)
Definition sample_task (c : Controls) (idx : option Z) (randint_draw : Z)
  : Controls * Result Z :=
  match idx with
  | None =>
      let c' := mkControls (k c) randint_draw (goals c) in
      (c', Ok randint_draw)
  | Some i =>
      let c' := mkControls (k c) i (goals c) in
      if (i <? k c)%Z then (c', Ok i) else (c', Raise AssertionError)
  end.

(** [PointMassEnv.get_goal_index]. *)
Definition get_goal_index (c : Controls) : Z := index c.

(* ------------------------------------------------------------------ *)
(** ** [PointMassEnv] (amy_point_mass.py) *)

(** [np.linalg.norm(state - goals)]: a Frobenius norm over the broadcast rows. *)
Definition goal_dist (p : R * R) (gs : Goals) : R :=
  match gs with
  | GoalVec g => norm2 (sub2 p g)
  | GoalRows rows =>
      sqrt (fold_right (fun g acc =>
              let '(dx, dy) := sub2 p g in dx * dx + dy * dy + acc) 0 rows)
  end.

(** [PointMassEnv.get_reward]. *)
Definition get_reward (state : R * R) (gs : Goals) : R :=
  if Rlt_dec (goal_dist state gs) (2 / 100) then 0 else -1.

(** The argument of [step]: an integer index or a continuous 2-vector. *)
Inductive PMAction : Type :=
| PMIndex (i : Z)
| PMVec (x y : R).

(** [if self.discrete: a = self.a_dict[int(a)]]; a continuous step passes
    the action on, a scalar being broadcast to both actuators. *)
Definition pm_resolve_action (discrete : bool) (a : PMAction) : Result (R * R) :=
  if discrete then
    match a with
    | PMIndex i =>
        match py_index pm_a_dict i with
        | Ok (x, y) => Ok (Q2R x, Q2R y)
        | Raise e => Raise e
        end
    | PMVec _ _ => Raise TypeError
    end
  else
    match a with
    | PMVec x y => Ok (x, y)
    | PMIndex i => Ok (IZR i, IZR i)
    end.

Inductive Body : Type := BGoal | BObject.

Record PMInfo : Type := mkPMInfo { info_dist : R; info_success : R }.

Section PointMassStep.

(** The simulator: its state, [qpos.flat[:2]], the [qvel[:2] = 0] +
    [set_state] prelude, [get_body_com] and [do_simulation]. *)
Variable Sim : Type.
Variable qpos2 : Sim -> R * R.
Variable zero_qvel2 : Sim -> Sim.
Variable get_body_com : Sim -> Body -> R * R * R.
Variable do_simulation : Sim -> R * R -> nat -> Sim.

Record PMEnv : Type := mkPMEnv {
  pm_controls : Controls;
  pm_discrete : bool;
  pm_frame_skip : nat;
  pm_sim : Sim
}.

(** [PointMassEnv._get_delta]: the first two components of the
    goal-minus-object body centre of mass. *)
Definition get_delta (s : Sim) : R * R :=
  let '(gx, gy, _) := get_body_com s BGoal in
  let '(ox, oy, _) := get_body_com s BObject in
  (gx - ox, gy - oy).

(** [PointMassEnv._get_obs]. *)
Definition pm_get_obs (s : Sim) : R * R := qpos2 s.

(** [PointMassEnv.step]: returns the environment after the call (the
    velocity prelude happens before the action lookup can raise) and
    [(ob, reward, done, info)] or the exception. *)
Definition pm_step (env : PMEnv) (a : PMAction)
  : PMEnv * Result ((R * R) * R * bool * PMInfo) :=
  let s1 := zero_qvel2 (pm_sim env) in
  let env1 := mkPMEnv (pm_controls env) (pm_discrete env) (pm_frame_skip env) s1 in
  match pm_resolve_action (pm_discrete env) a with
  | Raise e => (env1, Raise e)
  | Ok act =>
      let vec := get_delta s1 in
      let dist := norm2 vec in
      let s2 := do_simulation s1 act (pm_frame_skip env) in
      let ob := pm_get_obs s2 in
      let reward := get_reward ob (goals (pm_controls env)) in
      let done := Reqb reward 0 in
      (mkPMEnv (pm_controls env) (pm_discrete env) (pm_frame_skip env) s2,
       Ok (ob, reward, done, mkPMInfo dist (if Rlt_dec dist (2 / 100) then 1 else 0)))
  end.

End PointMassStep.

(* ------------------------------------------------------------------ *)
(** ** [Peg2DEnv] (peg_2d.py) *)

(** [good_goal]: [goal[0] < 0.26 and -0.26 < goal[0]]. *)
Definition good_goal (goal0 : R) : bool :=
  Rltb goal0 (26 / 100) && Rltb (- (26 / 100)) goal0.

(** [good_state]: [state[0] < (np.pi / 2) and (- np.pi / 2) < state[0]]. *)
Definition good_state (state : R * R * R) : bool :=
  let '(s0, _, _) := state in
  Rltb s0 (PI / 2) && Rltb (- PI / 2) s0.

(** The argument of [step]: an integer index or a continuous action vector. *)
Inductive PegAction : Type :=
| PegIndex (i : Z)
| PegVec (v : list R).

(** The reach counter update:
    [if self.reach_counts: self.reach_counts = self.reach_counts + 1 if reward == 0 else 0]
    [elif reward == 0: self.reach_counts = 1] *)
Definition reach_update (reach_counts : nat) (reward : R) : nat :=
  if negb (Nat.eqb reach_counts 0) then
    (if Reqb reward 0 then reach_counts + 1 else 0)%nat
  else if Reqb reward 0 then 1%nat
  else reach_counts.

(** [if self.done_on_goal and self.reach_counts > 1: done = True;
    self.reach_counts = 0 else: done = False]. *)
Definition done_check (done_on_goal : bool) (reach_counts : nat) : nat * bool :=
  if done_on_goal && Nat.ltb 1 reach_counts then (0%nat, true)
  else (reach_counts, false).

(** Both counter statements of [step], in order. *)
Definition counter_step (done_on_goal : bool) (reach_counts : nat) (reward : R)
  : nat * bool :=
  done_check done_on_goal (reach_update reach_counts reward).

Record PegInfo : Type := mkPegInfo { peg_info_success : R }.

Section PegStep.

(** The simulator: its state, the [qvel[-1:] = 0] / [if free: qpos[-1:] = 1] /
    [set_state] prelude, [do_simulation], [_get_obs] and the
    [ob['a'] = a] entry of the observation dictionary. *)
Variable Sim : Type.
Variable Obs : Type.
Variable peg_prelude : bool -> Sim -> Sim.
Variable peg_do_simulation : Sim -> list R -> nat -> Sim.
Variable peg_get_obs : Sim -> Obs.
Variable obs_set_a : Obs -> list R -> Obs.

Record PegEnv : Type := mkPegEnv {
  peg_discrete : bool;
  peg_table : list (Q * Q * Q);   (* self.a_dict *)
  peg_done_on_goal : bool;
  peg_free : bool;
  peg_obs_has_a : bool;           (* 'a' in self.obs_keys *)
  peg_goal : R;                   (* self.goal, a one-element array *)
  peg_frame_skip : nat;
  reach_counts : nat;
  peg_sim : Sim
}.

(** [if self.discrete: a = np.array([*self.a_dict[int(a)], self.goal])]. *)
Definition peg_resolve_action (env : PegEnv) (a : PegAction) : Result (list R) :=
  if peg_discrete env then
    match a with
    | PegIndex i =>
        match py_index (peg_table env) i with
        | Ok (x, y, z) => Ok [Q2R x; Q2R y; Q2R z; peg_goal env]
        | Raise e => Raise e
        end
    | PegVec _ => Raise TypeError
    end
  else
    match a with
    | PegVec v => Ok v
    | PegIndex i => Ok [IZR i]
    end.

Definition peg_with_sim (env : PegEnv) (s : Sim) (rc : nat) : PegEnv :=
  mkPegEnv (peg_discrete env) (peg_table env) (peg_done_on_goal env) (peg_free env)
    (peg_obs_has_a env) (peg_goal env) (peg_frame_skip env) rc s.

(** [Peg2DEnv.step]. *)
Definition peg_step (env : PegEnv) (a : PegAction)
  : PegEnv * Result (Obs * R * bool * PegInfo) :=
  let s1 := peg_prelude (peg_free env) (peg_sim env) in
  match peg_resolve_action env a with
  | Raise e => (peg_with_sim env s1 (reach_counts env), Raise e)
  | Ok act =>
      let s2 := peg_do_simulation s1 act (peg_frame_skip env) in
      let ob := peg_get_obs s2 in
      let reward := - vnorm act in
      let '(rc, done) := counter_step (peg_done_on_goal env) (reach_counts env) reward in
      let ob' := if peg_obs_has_a env then obs_set_a ob act else ob in
      (peg_with_sim env s2 rc, Ok (ob', reward, done, mkPegInfo 0))
  end.

(** The first statement of [reset_model]: [self.reach_counts = 0]. *)
Definition peg_reset_counter (env : PegEnv) : PegEnv :=
  peg_with_sim env (peg_sim env) 0.

End PegStep.

(** Successive [step] calls on a sequence of actions, as a training loop
    makes them: [None] as soon as a call raises, else the final environment
    with the rewards and [done] flags of the steps in order. *)
Fixpoint peg_run {Sim Obs : Type} (pre : bool -> Sim -> Sim)
    (dosim : Sim -> list R -> nat -> Sim) (obs : Sim -> Obs) (seta : Obs -> list R -> Obs)
    (env : PegEnv Sim) (acts : list PegAction) : option (PegEnv Sim * list R * list bool) :=
  match acts with
  | [] => Some (env, [], [])
  | a :: rest =>
      match peg_step Sim Obs pre dosim obs seta env a with
      | (env', Ok (_, r, d, _)) =>
          match peg_run pre dosim obs seta env' rest with
          | Some (env'', rs, ds) => Some (env'', r :: rs, d :: ds)
          | None => None
          end
      | (_, Raise _) => None
      end
  end.

(* ------------------------------------------------------------------ *)
(** ** Rejection samplers [_get_goal] and [_get_state] *)

(** Rows of a [(n, 3)] array given in row-major order. *)
Fixpoint rows3 (l : list R) : list (R * R * R) :=
  match l with
  | a :: b :: c :: rest => (a, b, c) :: rows3 rest
  | _ => []
  end.

Definition map2 {A B C : Type} (f : A -> B -> C) (l1 : list A) (l2 : list B) : list C :=
  map (fun p => f (fst p) (snd p)) (combine l1 l2).

(** [states[:, 1] = - states[:, 0] - np.sign(states[:, 0]) * _] *)
Definition set_col1 (states : list (R * R * R)) (spread : list R) : list (R * R * R) :=
  map2 (fun st u => let '(s0, _, s2) := st in (s0, - s0 - sign s0 * u, s2)) states spread.

(** [states[:, 2] = np.sign(states[:, 0]) * _ + extra] *)
Definition set_col2 (states : list (R * R * R)) (spread extra : list R) : list (R * R * R) :=
  map2 (fun st ue => let '(s0, s1, _) := st in (s0, s1, sign s0 * fst ue + snd ue))
    states (combine spread extra).

Section Sampling.

(** [self.np_random] as an explicit generator state:
    [uniform g low high n] is [g.uniform(low, high, size=n)] flattened,
    with the generator after the draw. *)
Variable RNG : Type.
Variable uniform : RNG -> R -> R -> nat -> list R * RNG.

(** One iteration of the [while True] loop of [_get_goal]: a [(4, 1)] batch. *)
Definition goal_batch (goal_low goal_high : R) (g : RNG) : list R * RNG :=
  uniform g goal_low goal_high 4.

(** [Peg2DEnv._get_goal], run for at most [fuel] iterations of its
    [while True] loop ([None]: no candidate accepted within [fuel] batches). *)
Fixpoint get_goal (goal_low goal_high : R) (fuel : nat) (g : RNG) : option (R * RNG) :=
  match fuel with
  | O => None
  | S fuel' =>
      let '(goals, g1) := goal_batch goal_low goal_high g in
      match find good_goal goals with
      | Some goal => Some (goal, g1)
      | None => get_goal goal_low goal_high fuel' g1
      end
  end.

(** One iteration of the [while True] loop of [_get_state]: the three draws
    in the order the code makes them, and the two column assignments. *)
Definition state_batch (g : RNG) : list (R * R * R) * RNG :=
  let '(raw, g1) := uniform g (- (3 / 2)) (3 / 2) 12 in
  let states := rows3 raw in
  let '(spread, g2) := uniform g1 0 (PI / 2) 4 in
  let states := set_col1 states spread in
  let '(extra, g3) := uniform g2 0 (PI / 4) 4 in
  (set_col2 states spread extra, g3).

(** [Peg2DEnv._get_state], run for at most [fuel] iterations. *)
Fixpoint get_state (fuel : nat) (g : RNG) : option ((R * R * R) * RNG) :=
  match fuel with
  | O => None
  | S fuel' =>
      let '(states, g1) := state_batch g in
      match find good_state states with
      | Some st => Some (st, g1)
      | None => get_state fuel' g1
      end
  end.

(** The generator after [n] batches of [_get_goal]. *)
Fixpoint goal_rng_after (goal_low goal_high : R) (n : nat) (g : RNG) : RNG :=
  match n with
  | O => g
  | S n' => goal_rng_after goal_low goal_high n' (snd (goal_batch goal_low goal_high g))
  end.

(** The generator after [n] batches of [_get_state]. *)
Fixpoint state_rng_after (n : nat) (g : RNG) : RNG :=
  match n with
  | O => g
  | S n' => state_rng_after n' (snd (state_batch g))
  end.

(** The three raw draws of one [_get_state] batch, in order. *)
Definition state_draws (g : RNG) : list R * list R * list R * RNG :=
  let '(raw, g1) := uniform g (- (3 / 2)) (3 / 2) 12 in
  let '(spread, g2) := uniform g1 0 (PI / 2) 4 in
  let '(extra, g3) := uniform g2 0 (PI / 4) 4 in
  (raw, spread, extra, g3).

End Sampling.

(* ------------------------------------------------------------------ *)
(** ** Concrete instances *)

(** A stand-in point-mass simulator used to run [pm_step] on concrete
    inputs: the state is the object's position, the goal body sits at the
    origin, and [do_simulation] displaces the object by the control. *)
Definition point_qpos2 (s : R * R) : R * R := s.
Definition point_zero_qvel2 (s : R * R) : R * R := s.
Definition point_body_com (s : R * R) (b : Body) : R * R * R :=
  match b with
  | BGoal => (0, 0, 0)
  | BObject => (fst s, snd s, 0)
  end.
Definition point_do_simulation (s : R * R) (a : R * R) (_ : nat) : R * R :=
  (fst s + fst a, snd s + snd a).

(** The registered [PointMassDiscrete-v0] configuration after a reset to
    the goal [(0, 0)], with the object at [p]. *)
Definition pm_env_at (p : R * R) : PMEnv (R * R) :=
  mkPMEnv (R * R) (mkControls 1 0 (GoalVec (0, 0))) true 10 p.

Definition run_pm_step (env : PMEnv (R * R)) (a : PMAction) :=
  pm_step (R * R) point_qpos2 point_zero_qvel2 point_body_com point_do_simulation env a.

(** A trivial peg simulator, enough to run [peg_step] on concrete inputs:
    the reward and the counter do not read the simulator. *)
Definition unit_prelude (_ : bool) (s : unit) : unit := s.
Definition unit_do_simulation (s : unit) (_ : list R) (_ : nat) : unit := s.
Definition unit_get_obs (s : unit) : unit := s.
Definition unit_obs_set_a (o : unit) (_ : list R) : unit := o.

(** A peg environment right after [reset_model] (counter 0). *)
Definition peg_env_cfg (discrete : bool) (table : list (Q * Q * Q)) (done_on_goal : bool)
    (goal : R) : PegEnv unit :=
  mkPegEnv unit discrete table done_on_goal false false goal 10 0 tt.

Definition run_peg_step (env : PegEnv unit) (a : PegAction) :=
  peg_step unit unit unit_prelude unit_do_simulation unit_get_obs unit_obs_set_a env a.

Definition run_peg (env : PegEnv unit) (acts : list PegAction) :=
  peg_run unit_prelude unit_do_simulation unit_get_obs unit_obs_set_a env acts.

(** Reference functions for the reach counter over a sequence of rewards:
    the length of the trailing run of zero rewards (continuing a run of
    [n]), and the [done] flag of each step when it is raised on every
    positive even run length under [done_on_goal]. *)
Fixpoint zero_streak_from (n : nat) (rs : list R) : nat :=
  match rs with
  | [] => n
  | r :: rs' => zero_streak_from (if Reqb r 0 then S n else 0%nat) rs'
  end.

Fixpoint streak_dones (done_on_goal : bool) (n : nat) (rs : list R) : list bool :=
  match rs with
  | [] => []
  | r :: rs' =>
      let n' := if Reqb r 0 then S n else 0%nat in
      (done_on_goal && Reqb r 0 && Nat.eqb (n' mod 2) 0) :: streak_dones done_on_goal n' rs'
  end.

(** A deterministic stand-in for [np_random.uniform], used to run the
    samplers on concrete inputs: the generator state counts the calls; the
    first call returns the three-quarter point of [[low, high)], later calls
    its midpoint. *)
Definition stand_in_uniform (g : nat) (low high : R) (n : nat) : list R * nat :=
  (repeat (if Nat.eqb g 0 then low + (high - low) * (3 / 4) else (low + high) / 2) n, S g).

(* ------------------------------------------------------------------ *)
(** ** More of [Controls] (amy_point_mass.py) *)

(** Rows of a [(k, 2)] array given in row-major order. *)
Fixpoint rows2 (l : list R) : list (R * R) :=
  match l with
  | a :: b :: rest => (a, b) :: rows2 rest
  | _ => []
  end.

Section ControlsGoals.

(** [self.rng], the [RandomState(seed)] of the controls, as an explicit
    generator state. *)
Variable RNG : Type.
Variable uniform : RNG -> R -> R -> nat -> list R * RNG.

(** [Controls._goals], run for at most [fuel] iterations of its
    [while True] loop: a [(k, 2)] batch of [uniform(low=5, high=1)], accepted
    when [(np.linalg.norm(goals, axis=-1) < 10).all()]. *)
Fixpoint controls_goals (k_goals : nat) (fuel : nat) (g : RNG) : option (list (R * R) * RNG) :=
  match fuel with
  | O => None
  | S fuel' =>
      let '(draws, g1) := uniform g 5 1 (2 * k_goals)%nat in
      let goals := rows2 draws in
      if forallb (fun row => Rltb (norm2 row) 10) goals then Some (goals, g1)
      else controls_goals k_goals fuel' g1
  end.

(** [Controls.__init__(k_goals, seed)]: [self.k = k_goals], then
    [self.sample_goal()] (which stores [self._goals]), then [self.index = 0];
    [g] is the freshly seeded generator. *)
Definition controls_init (k_goals : nat) (fuel : nat) (g : RNG) : option (Controls * RNG) :=
  match controls_goals k_goals fuel g with
  | Some (gs, g1) => Some (mkControls (Z.of_nat k_goals) 0 (GoalRows gs), g1)
  | None => None
  end.

End ControlsGoals.

(** What [self.goals[self.index]] yields: a row of the [(k, 2)] array, or
    one coordinate of the 2-vector installed by [reset_model]. *)
Inductive GoalValue : Type :=
| GoalRow (g : R * R)
| GoalScalar (x : R).

(** [Controls.true_goal]: [self.goals[self.index]], numpy indexing along the
    first axis. *)
Definition true_goal (c : Controls) : Result GoalValue :=
  match goals c with
  | GoalRows rows =>
      match py_index rows (index c) with
      | Ok g => Ok (GoalRow g)
      | Raise e => Raise e
      end
  | GoalVec (x, y) =>
      match py_index [x; y] (index c) with
      | Ok v => Ok (GoalScalar v)
      | Raise e => Raise e
      end
  end.

(** [PointMassEnv.get_true_goal]. *)
Definition get_true_goal (c : Controls) : Result GoalValue := true_goal c.

(** [Controls.sample_goal(goals)] with [goals] given. *)
Definition sample_goal_with (c : Controls) (gs : Goals) : Controls :=
  mkControls (k c) (index c) gs.

(* ------------------------------------------------------------------ *)
(** ** [PointMassEnv.reset_model] *)

(** [qpos[-2:] = goals] on a 1-D array: the [(2,)] right-hand side only
    fits a slice of length 2; a shorter array makes numpy raise ([None]). *)
Definition set_last2 (v : list R) (g : R * R) : option (list R) :=
  if Nat.leb 2 (length v) then Some (firstn (length v - 2) v ++ [fst g; snd g]) else None.

(** [qvel[-2:] = 0]: the scalar is broadcast over the (at most two) last
    entries. *)
Definition zero_last2 (v : list R) : list R :=
  firstn (length v - 2) v ++ repeat 0 (length v - (length v - 2)).

Section PointMassReset.

(** The simulator ([qpos.flat[:2]] and [set_state]), the two generators the
    method draws from ([self.np_random] and numpy's global one, both given
    by [uniform]) and [self.init_qpos], [self.init_qvel] ([nq] and [nv]
    entries). *)
Variable Sim : Type.
Variable qpos2 : Sim -> R * R.
Variable set_state : Sim -> list R -> list R -> Sim.
Variable RNG : Type.
Variable uniform : RNG -> R -> R -> nat -> list R * RNG.
Variable init_qpos init_qvel : list R.

(** [PointMassEnv.reset_model]; [gnp] is [self.np_random], [gglob] the
    global generator of [np.random.uniform(-0.3, 0.3, 2)].  Returns the
    environment, the observation ([None]: [qpos[-2:] = goals] raised, after
    the controls already took the new goal) and both generators. *)
Definition pm_reset_model (fix_goal : bool) (env : PMEnv Sim) (gnp gglob : RNG)
  : PMEnv Sim * option (R * R) * RNG * RNG :=
  let '(dq, gnp1) := uniform gnp (- (1 / 10)) (1 / 10) (length init_qpos) in
  let qpos := map2 Rplus dq init_qpos in
  let '(gd, gglob1) := uniform gglob (- (3 / 10)) (3 / 10) 2 in
  let goal := if fix_goal then (0, 0) else (nth 0 gd 0, nth 1 gd 0) in
  let c := sample_goal_with (pm_controls Sim env) (GoalVec goal) in
  match set_last2 qpos goal with
  | None => (mkPMEnv Sim c (pm_discrete Sim env) (pm_frame_skip Sim env) (pm_sim Sim env),
             None, gnp1, gglob1)
  | Some qpos' =>
      let '(dv, gnp2) := uniform gnp1 (- (5 / 1000)) (5 / 1000) (length init_qvel) in
      let qvel := zero_last2 (map2 Rplus init_qvel dv) in
      let s := set_state (pm_sim Sim env) qpos' qvel in
      (mkPMEnv Sim c (pm_discrete Sim env) (pm_frame_skip Sim env) s,
       Some (pm_get_obs Sim qpos2 s), gnp2, gglob1)
  end.

End PointMassReset.

(* ------------------------------------------------------------------ *)
(** ** [Peg2DEnv._get_obs] and [Peg2DEnv.reset_model] *)

(** A float of the simulator state: a real number or NaN. *)
Inductive Float : Type :=
| Num (r : R)
| NaN.

Definition fadd (a b : Float) : Float :=
  match a, b with Num x, Num y => Num (x + y) | _, _ => NaN end.
Definition fsub (a b : Float) : Float :=
  match a, b with Num x, Num y => Num (x - y) | _, _ => NaN end.
Definition fmul (a b : Float) : Float :=
  match a, b with Num x, Num y => Num (x * y) | _, _ => NaN end.

(** [np.arccos]: NaN outside [[-1, 1]]. *)
Definition np_arccos (x : R) : Float :=
  if Rle_dec (-1) x then (if Rle_dec x 1 then Num (acos x) else NaN) else NaN.

(** The pose [reset_model] renders the goal image from, [goal] being the
    (one-element) goal and [r] the [self.np_random.rand()] draw:
    [qpos = np.zeros(4); qpos[-1] = 1; peg_x_y = [-0.005, goal / 10];
    base = (0.03 + peg_x_y[0]); hypo = np.linalg.norm([base, peg_x_y[1]], ord=2);
    a0 = np.arctan(peg_x_y[1] / base);
    a1 = np.sign(rand - 0.5) * np.arccos(hypo / 0.04);
    qpos[0] = a0 + a1; qpos[1] = - 2 * a1; qpos[2] = 0 - qpos[0] - qpos[1]]. *)
Definition goal_pose (goal r : R) : list Float :=
  let peg_x_y := (- (5 / 1000), goal / 10) in
  let base := 3 / 100 + fst peg_x_y in
  let hypo := norm2 (base, snd peg_x_y) in
  let a0 := atan (snd peg_x_y / base) in
  let a1 := fmul (Num (sign (r - 1 / 2))) (np_arccos (hypo / (4 / 100))) in
  let q0 := fadd (Num a0) a1 in
  let q1 := fmul (Num (- 2)) a1 in
  let q2 := fsub (fsub (Num 0) q0) q1 in
  [q0; q1; q2; Num 1].

(** A value of the observation dictionary: an array or a rendered image. *)
Inductive ObsVal (Img : Type) : Type :=
| OArr (v : list Float)
| OImg (im : Img).
Arguments OArr {Img} v.
Arguments OImg {Img} im.

(** A Python dict with string keys, in insertion order. *)
Definition ObsDict (Img : Type) : Type := list (string * ObsVal Img).

(** [key in obs_keys]. *)
Definition key_in (key : string) (keys : list string) : bool :=
  existsb (String.eqb key) keys.

(** [d[key] = v]: an existing key keeps its place, a new one is appended. *)
Fixpoint dict_set {V : Type} (d : list (string * V)) (key : string) (v : V)
  : list (string * V) :=
  match d with
  | [] => [(key, v)]
  | (key', v') :: rest =>
      if String.eqb key' key then (key', v) :: rest else (key', v') :: dict_set rest key v
  end.

(** [d.get(key)]. *)
Fixpoint dict_get {V : Type} (d : list (string * V)) (key : string) : option V :=
  match d with
  | [] => None
  | (key', v') :: rest => if String.eqb key' key then Some v' else dict_get rest key
  end.

(** The keys of [self.observation_space], built by the four [if] statements
    of [Peg2DEnv.__init__]. *)
Definition obs_space_keys (obs_keys : list string) : list string :=
  (if key_in "x"%string obs_keys then ["x"%string] else []) ++
  (if key_in "goal"%string obs_keys then ["goal"%string] else []) ++
  (if key_in "img"%string obs_keys then ["img"%string] else []) ++
  (if key_in "goal_img"%string obs_keys then ["goal_img"%string] else []).

(** [qpos[3:] = [1]]: the one-element list is broadcast over the slice. *)
Definition slot_out (qpos : list Float) : list Float :=
  firstn 3 qpos ++ map (fun _ => Num 1) (skipn 3 qpos).

Section PegObs.

(** The simulator: [sim.data.qpos], [sim.data.qvel], [set_state] and
    [render('grey', width=self.width, height=self.height).transpose(0, 1)[None, ...] / 255]. *)
Variable Sim Img : Type.
Variable sim_qpos sim_qvel : Sim -> list Float.
Variable set_state : Sim -> list Float -> list Float -> Sim.
Variable render : Sim -> Img.

(** [Peg2DEnv._get_obs]: the observation dictionary and the simulator
    after the call ([goal_img] is [self.goal_img]). *)
Definition peg_get_obs_full (obs_keys : list string) (goal_img : Img) (s : Sim)
  : ObsDict Img * Sim :=
  let obs : ObsDict Img := [] in
  let qpos := sim_qpos s in
  let obs := if key_in "x"%string obs_keys
             then dict_set obs "x"%string (OArr (firstn 3 qpos)) else obs in
  let '(obs, qpos, s) :=
    if key_in "img"%string obs_keys then
      let goal := skipn 3 qpos in
      let qpos := slot_out qpos in
      let s := set_state s qpos (sim_qvel s) in
      let obs := dict_set obs "img"%string (OImg (render s)) in
      let qpos := firstn 3 qpos ++ goal in
      let s := set_state s qpos (sim_qvel s) in
      (obs, qpos, s)
    else (obs, qpos, s) in
  let obs := if key_in "goal"%string obs_keys
             then dict_set obs "goal"%string (OArr (skipn 3 qpos)) else obs in
  let obs := if key_in "goal_img"%string obs_keys
             then dict_set obs "goal_img"%string (OImg goal_img) else obs in
  (obs, s).

(** [Peg2DEnv.step]'s [ob['a'] = a] on that dictionary. *)
Definition obs_set_a_dict (ob : ObsDict Img) (a : list R) : ObsDict Img :=
  dict_set ob "a"%string (OArr (map Num a)).

Variable RNG : Type.
Variable uniform : RNG -> R -> R -> nat -> list R * RNG.
Variable rand : RNG -> R * RNG.
(** [self.sim.data.qpos[:] = v] and [self.sim.data.qvel[:] = v]. *)
Variable write_qpos write_qvel : Sim -> list Float -> Sim.

(** [Peg2DEnv.reset_model(x, goal)]: [x_arg] and [goal_arg] are the optional
    arguments, the samplers run for at most [fuel] batches ([None]: not done
    within [fuel]).  Returns the environment (counter 0, [self.goal] set), the
    goal image, the observation and the generator. *)
Definition peg_reset_model (obs_keys : list string) (goal_low goal_high : R)
    (env : PegEnv Sim) (x_arg : option (R * R * R)) (goal_arg : option R)
    (fuel : nat) (g : RNG) : option (PegEnv Sim * Img * ObsDict Img * RNG) :=
  let sampled_x := match x_arg with
                   | Some x => Some (x, g)
                   | None => get_state RNG uniform fuel g
                   end in
  match sampled_x with
  | None => None
  | Some (x, g1) =>
      let sampled_goal := match goal_arg with
                          | Some gl => Some (gl, g1)
                          | None => get_goal RNG uniform goal_low goal_high fuel g1
                          end in
      match sampled_goal with
      | None => None
      | Some (goal, g2) =>
          let '(r, g3) := rand g2 in
          let s1 := set_state (peg_sim Sim env) (goal_pose goal r) (sim_qvel (peg_sim Sim env)) in
          let goal_img := render s1 in
          let '(x0, x1, x2) := x in
          let s2 := write_qpos s1 (map Num ([x0; x1; x2] ++ (if peg_free Sim env then [1] else [goal]))) in
          let s3 := write_qvel s2 (repeat (Num 0) (length (sim_qvel s2))) in
          let '(obs, s4) := peg_get_obs_full obs_keys goal_img s3 in
          Some (mkPegEnv Sim (peg_discrete Sim env) (peg_table Sim env) (peg_done_on_goal Sim env)
                  (peg_free Sim env) (peg_obs_has_a Sim env) goal (peg_frame_skip Sim env) 0 s4,
                goal_img, obs, g3)
      end
  end.

End PegObs.

(** A stand-in MuJoCo state for running the peg observation and reset code:
    [set_state] and the [qpos[:]] / [qvel[:]] writes store the arrays, and
    the rendered "image" is the pose itself. *)
Record MjState : Type := mkMj { mj_qpos : list Float; mj_qvel : list Float }.
Definition mj_set_state (_ : MjState) (q v : list Float) : MjState := mkMj q v.
Definition mj_render (s : MjState) : list Float := mj_qpos s.
Definition mj_write_qpos (s : MjState) (q : list Float) : MjState := mkMj q (mj_qvel s).
Definition mj_write_qvel (s : MjState) (v : list Float) : MjState := mkMj (mj_qpos s) v.
Definition mj_prelude (_ : bool) (s : MjState) : MjState := s.
Definition mj_do_simulation (s : MjState) (_ : list R) (_ : nat) : MjState := s.

(** [set_state] of the stand-in point-mass simulator: the object takes the
    first two position entries. *)
Definition point_set_state (_ : R * R) (qpos _ : list R) : R * R :=
  (nth 0 qpos 0, nth 1 qpos 0).

(** A stand-in for [np_random.rand()]: always 0. *)
Definition stand_in_rand (g : nat) : R * nat := (0, S g).

(* ================================================================== *)
(** * Properties *)

(* ------------------------------------------------------------------ *)
(** ** Helper lemmas *)

Lemma is_zeroQ_true_iff (x : Q) : is_zeroQ x = true <-> (x == 0)%Q.
Proof. unfold is_zeroQ. apply Qeq_bool_iff. Qed.

Lemma is_zeroQ_false (x : Q) : ~ (x == 0)%Q -> is_zeroQ x = false.
Proof.
  intros H. destruct (is_zeroQ x) eqn:E; [|reflexivity].
  apply is_zeroQ_true_iff in E. contradiction.
Qed.

Lemma is_zeroQ_opp_false (x : Q) : ~ (x == 0)%Q -> is_zeroQ (- x) = false.
Proof.
  intros H. apply is_zeroQ_false. intros E. apply H.
  rewrite <- (Qopp_involutive x), E. reflexivity.
Qed.

Lemma py_index_in_range {A : Type} (l : list A) (i : Z) :
  (0 <= i < Z.of_nat (length l))%Z ->
  exists x, nth_error l (Z.to_nat i) = Some x /\ py_index l i = Ok x.
Proof.
  intros [H0 H1]. unfold py_index.
  destruct (nth_error l (Z.to_nat i)) as [x|] eqn:E.
  - exists x. split; [reflexivity|]. cbv zeta. now rewrite (proj2 (Z.leb_le 0 i) H0).
  - apply nth_error_None in E. lia.
Qed.

Lemma py_index_negative {A : Type} (l : list A) (i : Z) :
  (- Z.of_nat (length l) <= i < 0)%Z ->
  py_index l i = py_index l (Z.of_nat (length l) + i).
Proof.
  intros [H0 H1]. unfold py_index.
  replace (0 <=? i)%Z with false by (symmetry; apply Z.leb_gt; lia).
  rewrite (proj2 (Z.leb_le _ i) H0).
  replace (0 <=? Z.of_nat (length l) + i)%Z with true by (symmetry; apply Z.leb_le; lia).
  reflexivity.
Qed.

Lemma py_index_out_of_range {A : Type} (l : list A) (i : Z) :
  (i < - Z.of_nat (length l) \/ Z.of_nat (length l) <= i)%Z ->
  py_index l i = Raise IndexError.
Proof.
  intros H. unfold py_index.
  cbv zeta. destruct (0 <=? i)%Z eqn:E0.
  - apply Z.leb_le in E0.
    destruct (nth_error l (Z.to_nat i)) eqn:E; [|reflexivity].
    assert (Hl : (Z.to_nat i < length l)%nat) by (apply nth_error_Some; congruence).
    lia.
  - apply Z.leb_gt in E0.
    destruct (- Z.of_nat (length l) <=? i)%Z eqn:E1; [|reflexivity].
    apply Z.leb_le in E1. lia.
Qed.

Lemma peg_a_dict_full_unfold (s : Q) :
  peg_a_dict_full s =
  [(-s,-s,-s); (-s,-s,0); (-s,-s,s); (-s,0,-s); (-s,0,0); (-s,0,s);
   (-s,s,-s); (-s,s,0); (-s,s,s);
   (0,-s,-s); (0,-s,0); (0,-s,s); (0,0,-s); (0,0,0); (0,0,s);
   (0,s,-s); (0,s,0); (0,s,s);
   (s,-s,-s); (s,-s,0); (s,-s,s); (s,0,-s); (s,0,0); (s,0,s);
   (s,s,-s); (s,s,0); (s,s,s)]%Q.
Proof. reflexivity. Qed.

Lemma peg_a_dict_id_less_unfold (s : Q) : ~ (s == 0)%Q ->
  peg_a_dict_id_less s =
  [(-s,-s,-s); (-s,-s,0); (-s,-s,s); (-s,0,-s); (-s,0,0); (-s,0,s);
   (-s,s,-s); (-s,s,0); (-s,s,s);
   (0,-s,-s); (0,-s,0); (0,-s,s); (0,0,-s); (0,0,s);
   (0,s,-s); (0,s,0); (0,s,s);
   (s,-s,-s); (s,-s,0); (s,-s,s); (s,0,-s); (s,0,0); (s,0,s);
   (s,s,-s); (s,s,0); (s,s,s)]%Q.
Proof.
  intros Hs.
  pose proof (is_zeroQ_false s Hs) as H1.
  pose proof (is_zeroQ_opp_false s Hs) as H2.
  assert (H3 : is_zeroQ 0 = true) by reflexivity.
  unfold peg_a_dict_id_less, peg_actions.
  cbn [flat_map app].
  rewrite ?H1, ?H2, ?H3. reflexivity.
Qed.


Lemma filter_cons_app {A : Type} (f : A -> bool) (x : A) (l : list A) :
  filter f (x :: l) = (if f x then [x] else []) ++ filter f l.
Proof. simpl. destruct (f x); reflexivity. Qed.

(** Evaluates [filter all_zero3] over an explicit table of a nonzero scale. *)
Ltac eval_zero_filter H1 H2 H3 :=
  repeat rewrite filter_cons_app; cbn [filter all_zero3];
  rewrite ?H1, ?H2, ?H3; reflexivity.

(** ** C4: the discrete action tables *)

(** C4. The tables are the Cartesian products of [{-scale, 0, +scale}]
    enumerated with the outermost dimension varying slowest.  Point-mass:
    the 8 entries in that order, none all-zero.  Peg with [id_less=False]:
    27 entries, entry [i] being level [i / 9], [(i / 3) mod 3], [i mod 3],
    with exactly one all-zero entry.  Peg with [id_less=True]: 26 entries,
    the same table with its all-zero entry (position 13) removed, none
    all-zero.  The peg scale is any nonzero [act_scale]. *)
Theorem action_tables (act_scale : Q) (Hs : ~ (act_scale == 0)%Q) :
  pm_a_dict = [(-(1#2), -(1#2)); (-(1#2), 0); (-(1#2), 1#2); (0, -(1#2));
               (0, 1#2); (1#2, -(1#2)); (1#2, 0); (1#2, 1#2)]%Q /\
  length pm_a_dict = 8%nat /\
  filter all_zero2 pm_a_dict = [] /\
  length (peg_a_dict act_scale false) = 27%nat /\
  (forall i, (i < 27)%nat ->
     nth_error (peg_a_dict act_scale false) i =
     Some (nth (i / 9) (peg_actions act_scale) 0%Q,
           nth ((i / 3) mod 3) (peg_actions act_scale) 0%Q,
           nth (i mod 3) (peg_actions act_scale) 0%Q)) /\
  length (filter all_zero3 (peg_a_dict act_scale false)) = 1%nat /\
  peg_a_dict act_scale true =
    firstn 13 (peg_a_dict act_scale false) ++ skipn 14 (peg_a_dict act_scale false) /\
  length (peg_a_dict act_scale true) = 26%nat /\
  filter all_zero3 (peg_a_dict act_scale true) = [].
Proof.
  pose proof (is_zeroQ_false act_scale Hs) as H1.
  pose proof (is_zeroQ_opp_false act_scale Hs) as H2.
  assert (H3 : is_zeroQ 0 = true) by reflexivity.
  unfold peg_a_dict. rewrite peg_a_dict_full_unfold, (peg_a_dict_id_less_unfold _ Hs).
  repeat split; try reflexivity.
  - intros i Hi.
    do 27 (destruct i as [|i]; [reflexivity|]). lia.
  - eval_zero_filter H1 H2 H3.
  - eval_zero_filter H1 H2 H3.
Qed.

(** Witness of C4 at the default [act_scale = 1]. *)
Lemma action_tables_witness :
  ~ (1 == 0)%Q /\
  pm_a_dict = [(-(1#2), -(1#2)); (-(1#2), 0); (-(1#2), 1#2); (0, -(1#2));
               (0, 1#2); (1#2, -(1#2)); (1#2, 0); (1#2, 1#2)]%Q /\
  length pm_a_dict = 8%nat /\
  filter all_zero2 pm_a_dict = [] /\
  length (peg_a_dict 1%Q false) = 27%nat /\
  (forall i, (i < 27)%nat ->
     nth_error (peg_a_dict 1%Q false) i =
     Some (nth (i / 9) (peg_actions 1%Q) 0%Q,
           nth ((i / 3) mod 3) (peg_actions 1%Q) 0%Q,
           nth (i mod 3) (peg_actions 1%Q) 0%Q)) /\
  length (filter all_zero3 (peg_a_dict 1%Q false)) = 1%nat /\
  peg_a_dict 1%Q true =
    firstn 13 (peg_a_dict 1%Q false) ++ skipn 14 (peg_a_dict 1%Q false) /\
  length (peg_a_dict 1%Q true) = 26%nat /\
  filter all_zero3 (peg_a_dict 1%Q true) = [].
Proof.
  assert (H1 : ~ (1 == 0)%Q) by discriminate.
  split; [exact H1|]. exact (action_tables 1%Q H1).
Defined.

(** ** C3: action lookup by discrete index *)

(** C3 (as the code does it).  In both discrete environments, [step]
    looks a discrete index [i] up with Python list subscription
    [self.a_dict[int(a)]] ([pm_resolve_action], [peg_resolve_action]), with
    no bounds check.  An index in [[0, len)] gives the table's entry [i]
    unchanged (the peg step then appends [self.goal]); an index in
    [[-len, 0)] silently gives entry [len + i], and the whole step behaves
    as for [len + i]; only an index below [-len] or at least [len] makes
    the lookup, and so the step, raise [IndexError]. *)
Theorem action_lookup_python_indexing (Sim : Type) (qpos2 : Sim -> R * R)
    (zero_qvel2 : Sim -> Sim) (get_body_com : Sim -> Body -> R * R * R)
    (do_simulation : Sim -> R * R -> nat -> Sim) (env : PMEnv Sim)
    (PSim Obs : Type) (pre : bool -> PSim -> PSim) (pdosim : PSim -> list R -> nat -> PSim)
    (obs : PSim -> Obs) (seta : Obs -> list R -> Obs) (penv : PegEnv PSim) :
  pm_discrete Sim env = true ->
  peg_discrete PSim penv = true ->
  let n := Z.of_nat (length pm_a_dict) in
  let m := Z.of_nat (length (peg_table PSim penv)) in
  let pstep := pm_step Sim qpos2 zero_qvel2 get_body_com do_simulation env in
  let gstep := peg_step PSim Obs pre pdosim obs seta penv in
  (forall i, (0 <= i < n)%Z -> exists x y,
     nth_error pm_a_dict (Z.to_nat i) = Some (x, y) /\
     pm_resolve_action (pm_discrete Sim env) (PMIndex i) = Ok (Q2R x, Q2R y)) /\
  (forall i, (- n <= i < 0)%Z ->
     pm_resolve_action (pm_discrete Sim env) (PMIndex i) =
       pm_resolve_action (pm_discrete Sim env) (PMIndex (n + i)) /\
     pstep (PMIndex i) = pstep (PMIndex (n + i))) /\
  (forall i, (i < - n \/ n <= i)%Z ->
     pm_resolve_action (pm_discrete Sim env) (PMIndex i) = Raise IndexError /\
     snd (pstep (PMIndex i)) = Raise IndexError) /\
  (forall i, (0 <= i < m)%Z -> exists x y z,
     nth_error (peg_table PSim penv) (Z.to_nat i) = Some (x, y, z) /\
     peg_resolve_action PSim penv (PegIndex i) = Ok [Q2R x; Q2R y; Q2R z; peg_goal PSim penv]) /\
  (forall i, (- m <= i < 0)%Z ->
     peg_resolve_action PSim penv (PegIndex i) = peg_resolve_action PSim penv (PegIndex (m + i)) /\
     gstep (PegIndex i) = gstep (PegIndex (m + i))) /\
  (forall i, (i < - m \/ m <= i)%Z ->
     peg_resolve_action PSim penv (PegIndex i) = Raise IndexError /\
     snd (gstep (PegIndex i)) = Raise IndexError).
Proof.
  intros Hpm Hpeg. cbv zeta.
  assert (Rpm : forall i, pm_resolve_action (pm_discrete Sim env) (PMIndex i) =
            match py_index pm_a_dict i with
            | Ok (x, y) => Ok (Q2R x, Q2R y)
            | Raise e => Raise e
            end) by (intros i; rewrite Hpm; reflexivity).
  assert (Rpeg : forall i, peg_resolve_action PSim penv (PegIndex i) =
            match py_index (peg_table PSim penv) i with
            | Ok (x, y, z) => Ok [Q2R x; Q2R y; Q2R z; peg_goal PSim penv]
            | Raise e => Raise e
            end) by (intros i; unfold peg_resolve_action; rewrite Hpeg; reflexivity).
  split; [|split; [|split; [|split; [|split]]]].
  - intros i Hi. destruct (py_index_in_range pm_a_dict i Hi) as ([x y] & Hn & Hp).
    exists x, y. split; [exact Hn|]. rewrite Rpm, Hp. reflexivity.
  - intros i Hi.
    assert (Hr : pm_resolve_action (pm_discrete Sim env) (PMIndex i) =
                 pm_resolve_action (pm_discrete Sim env) (PMIndex (Z.of_nat (length pm_a_dict) + i)))
      by (rewrite !Rpm, (py_index_negative pm_a_dict i Hi); reflexivity).
    split; [exact Hr|]. unfold pm_step. rewrite Hr. reflexivity.
  - intros i Hi.
    assert (Hr : pm_resolve_action (pm_discrete Sim env) (PMIndex i) = Raise IndexError)
      by (rewrite Rpm, (py_index_out_of_range pm_a_dict i Hi); reflexivity).
    split; [exact Hr|]. unfold pm_step. rewrite Hr. reflexivity.
  - intros i Hi. destruct (py_index_in_range (peg_table PSim penv) i Hi) as ([[x y] z] & Hn & Hp).
    exists x, y, z. split; [exact Hn|]. rewrite Rpeg, Hp. reflexivity.
  - intros i Hi.
    assert (Hr : peg_resolve_action PSim penv (PegIndex i) =
                 peg_resolve_action PSim penv
                   (PegIndex (Z.of_nat (length (peg_table PSim penv)) + i)))
      by (rewrite !Rpeg, (py_index_negative (peg_table PSim penv) i Hi); reflexivity).
    split; [exact Hr|]. unfold peg_step. rewrite Hr. reflexivity.
  - intros i Hi.
    assert (Hr : peg_resolve_action PSim penv (PegIndex i) = Raise IndexError)
      by (rewrite Rpeg, (py_index_out_of_range (peg_table PSim penv) i Hi); reflexivity).
    split; [exact Hr|]. unfold peg_step. rewrite Hr. reflexivity.
Qed.

(** Witness for [action_lookup_python_indexing]: the discrete point mass
    on its stand-in simulator and the discrete, id-less peg environment. *)
Lemma action_lookup_python_indexing_witness :
  pm_discrete (R * R) (pm_env_at (0, 0)) = true /\
  peg_discrete unit (mkPegEnv unit true (peg_a_dict 1 true) false false false (1 / 100) 10 0 tt)
    = true /\
  pm_resolve_action (pm_discrete (R * R) (pm_env_at (0, 0))) (PMIndex (-1)) =
    pm_resolve_action (pm_discrete (R * R) (pm_env_at (0, 0))) (PMIndex 7) /\
  snd (run_peg_step (mkPegEnv unit true (peg_a_dict 1 true) false false false (1 / 100) 10 0 tt)
         (PegIndex 26)) = Raise IndexError.
Proof.
  destruct (action_lookup_python_indexing (R * R) point_qpos2 point_zero_qvel2 point_body_com
              point_do_simulation (pm_env_at (0, 0)) unit unit unit_prelude unit_do_simulation
              unit_get_obs unit_obs_set_a
              (mkPegEnv unit true (peg_a_dict 1 true) false false false (1 / 100) 10 0 tt)
              eq_refl eq_refl)
    as (_ & Hneg & _ & _ & _ & Hout).
  split; [reflexivity|]. split; [reflexivity|]. split.
  - assert (H : (- Z.of_nat (length pm_a_dict) <= -1 < 0)%Z) by (simpl; lia).
    exact (proj1 (Hneg (-1)%Z H)).
  - assert (H : (26 < - Z.of_nat (length (peg_table unit
                  (mkPegEnv unit true (peg_a_dict 1 true) false false false (1 / 100) 10 0 tt)))
                \/ Z.of_nat (length (peg_table unit
                  (mkPegEnv unit true (peg_a_dict 1 true) false false false (1 / 100) 10 0 tt)))
                <= 26)%Z)
      by (right; vm_compute; discriminate).
    exact (proj2 (Hout 26%Z H)).
Defined.

(** C3 fails at index [-1] of the point-mass table: the step's lookup returns
    the last entry [(0.5, 0.5)] instead of failing. *)
Lemma action_lookup_wraps_at_minus_one :
  py_index pm_a_dict (-1) = Ok ((1#2), (1#2))%Q /\
  pm_resolve_action true (PMIndex (-1)) = Ok (Q2R (1#2), Q2R (1#2)).
Proof. split; reflexivity. Qed.

(** ** C2: [sample_task] with an explicit index *)

(** C2 (as the code does it).  [sample_task(index=i)] stores [i] and then
    raises an assertion error exactly when [i >= k]; there is no lower-bound
    check.  For every [i < k], negative ones included, the call returns [i]
    and [get_goal_index()] then returns [i]. *)
Theorem sample_task_index_checks_upper_bound (c : Controls) (i draw : Z) :
  get_goal_index (fst (sample_task c (Some i) draw)) = i /\
  (snd (sample_task c (Some i) draw) = Raise AssertionError <-> (k c <= i)%Z) /\
  ((i < k c)%Z -> snd (sample_task c (Some i) draw) = Ok i).
Proof.
  unfold sample_task, get_goal_index. cbn [fst snd index].
  destruct (i <? k c)%Z eqn:E.
  - apply Z.ltb_lt in E. repeat split; intros H; try discriminate; lia.
  - apply Z.ltb_ge in E. repeat split; intros H; auto; lia.
Qed.

(** C2 fails at [k = 1], [i = -1]: the index is outside [[0, 1)], yet the
    call returns [-1] without an error and [get_goal_index()] is [-1]. *)
Lemma sample_task_accepts_minus_one :
  snd (sample_task (mkControls 1 0 (GoalVec (0, 0))) (Some (-1)%Z) 0) = Ok (-1)%Z /\
  get_goal_index (fst (sample_task (mkControls 1 0 (GoalVec (0, 0))) (Some (-1)%Z) 0)) = (-1)%Z.
Proof. split; reflexivity. Qed.

(** ** C1: point-mass reward and termination *)

Lemma goal_dist_single (p g : R * R) (gs : Goals) :
  goal_rows gs = [g] -> goal_dist p gs = norm2 (sub2 p g).
Proof.
  intros H. destruct gs as [rows|g']; simpl in H.
  - subst rows. unfold goal_dist, norm2. cbn [fold_right].
    destruct (sub2 p g) as [dx dy]. now rewrite Rplus_0_r.
  - injection H as ->. reflexivity.
Qed.

Lemma Reqb_true_iff (x y : R) : Reqb x y = true <-> x = y.
Proof. unfold Reqb. destruct (Req_EM_T x y); split; congruence. Qed.

(** C1.  A point-mass step that returns observes [p = qpos[:2]] after the
    simulation; with the current goal [g], its reward is [0] when
    [||p - g|| < 0.02] and [-1] otherwise, and [done] holds exactly when
    the reward is [0]. *)
Theorem pm_step_reward_done (Sim : Type) (qpos2 : Sim -> R * R) (zero_qvel2 : Sim -> Sim)
    (get_body_com : Sim -> Body -> R * R * R) (do_simulation : Sim -> R * R -> nat -> Sim)
    (env : PMEnv Sim) (a : PMAction) (act g : R * R) :
  pm_resolve_action (pm_discrete Sim env) a = Ok act ->
  goal_rows (goals (pm_controls Sim env)) = [g] ->
  exists env' ob reward done info,
    pm_step Sim qpos2 zero_qvel2 get_body_com do_simulation env a
      = (env', Ok (ob, reward, done, info)) /\
    ob = qpos2 (do_simulation (zero_qvel2 (pm_sim Sim env)) act (pm_frame_skip Sim env)) /\
    reward = (if Rlt_dec (norm2 (sub2 ob g)) (2 / 100) then 0 else -1) /\
    (done = true <-> reward = 0).
Proof.
  intros Hact Hg. unfold pm_step. rewrite Hact.
  eexists _, _, _, _, _. split; [reflexivity|].
  split; [reflexivity|]. split.
  - unfold get_reward. rewrite (goal_dist_single _ g _ Hg). reflexivity.
  - apply Reqb_true_iff.
Qed.

Lemma Q2R_half : Q2R (1#2) = 1 / 2.
Proof. unfold Q2R. simpl. lra. Qed.

Lemma Q2R_minus_half : Q2R (Qmake (-1) 2) = - (1 / 2).
Proof. unfold Q2R. simpl. lra. Qed.

Lemma Q2R_zero : Q2R 0 = 0.
Proof. unfold Q2R. simpl. lra. Qed.

(** Witness of C1: the registered discrete point mass, one step left from
    [(0.5, 0)] towards the goal [(0, 0)]. *)
Lemma pm_step_reward_done_witness :
  pm_resolve_action (pm_discrete (R * R) (pm_env_at (1 / 2, 0))) (PMIndex 1)
    = Ok (Q2R (Qmake (-1) 2), Q2R 0) /\
  goal_rows (goals (pm_controls (R * R) (pm_env_at (1 / 2, 0)))) = [(0, 0)] /\
  exists env' ob reward done info,
    run_pm_step (pm_env_at (1 / 2, 0)) (PMIndex 1) = (env', Ok (ob, reward, done, info)) /\
    ob = point_qpos2 (point_do_simulation (point_zero_qvel2 (1 / 2, 0))
                        (Q2R (Qmake (-1) 2), Q2R 0) 10) /\
    reward = (if Rlt_dec (norm2 (sub2 ob (0, 0))) (2 / 100) then 0 else -1) /\
    (done = true <-> reward = 0).
Proof.
  split; [reflexivity|]. split; [reflexivity|].
  apply (pm_step_reward_done (R * R) point_qpos2 point_zero_qvel2 point_body_com
           point_do_simulation (pm_env_at (1 / 2, 0)) (PMIndex 1)
           (Q2R (Qmake (-1) 2), Q2R 0) (0, 0)); reflexivity.
Defined.

(** ** C9: step info against reward and termination *)

Lemma norm2_x_axis (x : R) : norm2 (x, 0) = Rabs x.
Proof.
  unfold norm2. rewrite Rmult_0_l, Rplus_0_r. apply sqrt_Rsqr_abs.
Qed.

(** C9.  In a point-mass step that returns, [info['dist']] and
    [info['success']] come from the body-com delta read after the velocity
    prelude but before [do_simulation], while [reward] and [done] come from
    the observation after it.  So a step that starts at least 0.02 away and
    ends within 0.02 of the goal reports [success = 0.0] with [done = True],
    and a step that starts within 0.02 and ends at least 0.02 away reports
    [success = 1.0] with [done = False]. *)
Theorem pm_step_info_before_simulation (Sim : Type) (qpos2 : Sim -> R * R)
    (zero_qvel2 : Sim -> Sim) (get_body_com : Sim -> Body -> R * R * R)
    (do_simulation : Sim -> R * R -> nat -> Sim) (env : PMEnv Sim) (a : PMAction) (act : R * R) :
  pm_resolve_action (pm_discrete Sim env) a = Ok act ->
  exists env' ob reward done info,
    pm_step Sim qpos2 zero_qvel2 get_body_com do_simulation env a
      = (env', Ok (ob, reward, done, info)) /\
    info_dist info = norm2 (get_delta Sim get_body_com (zero_qvel2 (pm_sim Sim env))) /\
    info_success info = (if Rlt_dec (info_dist info) (2 / 100) then 1 else 0) /\
    ob = qpos2 (do_simulation (zero_qvel2 (pm_sim Sim env)) act (pm_frame_skip Sim env)) /\
    (done = true <-> goal_dist ob (goals (pm_controls Sim env)) < 2 / 100) /\
    (2 / 100 <= info_dist info -> goal_dist ob (goals (pm_controls Sim env)) < 2 / 100 ->
       info_success info = 0 /\ done = true) /\
    (info_dist info < 2 / 100 -> 2 / 100 <= goal_dist ob (goals (pm_controls Sim env)) ->
       info_success info = 1 /\ done = false).
Proof.
  intros Hact. unfold pm_step. rewrite Hact.
  set (d := norm2 (get_delta Sim get_body_com (zero_qvel2 (pm_sim Sim env)))).
  set (ob := pm_get_obs Sim qpos2
               (do_simulation (zero_qvel2 (pm_sim Sim env)) act (pm_frame_skip Sim env))).
  assert (Hdone : Reqb (get_reward ob (goals (pm_controls Sim env))) 0 = true <->
                  goal_dist ob (goals (pm_controls Sim env)) < 2 / 100).
  { rewrite Reqb_true_iff. unfold get_reward.
    destruct (Rlt_dec _ (2 / 100)); split; intros H; lra. }
  eexists _, _, _, _, _. split; [reflexivity|].
  cbn [info_dist info_success]. split; [reflexivity|]. split; [reflexivity|].
  split; [reflexivity|]. split; [exact Hdone|]. split.
  - intros H1 H2. split.
    + destruct (Rlt_dec d (2 / 100)); [lra|reflexivity].
    + now apply Hdone.
  - intros H1 H2. split.
    + destruct (Rlt_dec d (2 / 100)); [reflexivity|lra].
    + apply not_true_is_false. intros E. apply Hdone in E. lra.
Qed.

(** Witness of C9 on the stand-in simulator: one step left from [(0.5, 0)]
    lands on the goal ([success = 0.0], [done = True]); one step right from
    the goal leaves it ([success = 1.0], [done = False]). *)
Lemma pm_step_info_before_simulation_witness :
  (exists env' ob reward info,
     run_pm_step (pm_env_at (1 / 2, 0)) (PMIndex 1) = (env', Ok (ob, reward, true, info)) /\
     info_success info = 0) /\
  (exists env' ob reward info,
     run_pm_step (pm_env_at (0, 0)) (PMIndex 6) = (env', Ok (ob, reward, false, info)) /\
     info_success info = 1).
Proof.
  split.
  - destruct (pm_step_info_before_simulation (R * R) point_qpos2 point_zero_qvel2
                point_body_com point_do_simulation (pm_env_at (1 / 2, 0)) (PMIndex 1)
                (Q2R (Qmake (-1) 2), Q2R 0) ltac:(reflexivity))
      as (env' & ob & reward & done & info & Hs & Hd & _ & Hob & _ & Hcase & _).
    assert (Hd' : info_dist info = 1 / 2).
    { rewrite Hd. unfold get_delta, point_body_com, point_zero_qvel2. cbn -[norm2 Rminus Rdiv Rplus Q2R].
      replace (0 - 1 / 2, 0 - 0) with (- (1 / 2), 0) by (f_equal; lra).
      rewrite norm2_x_axis. unfold Rabs. destruct (Rcase_abs _); lra. }
    assert (Hg : goal_dist ob (goals (pm_controls (R * R) (pm_env_at (1 / 2, 0)))) = 0).
    { rewrite Hob. unfold point_qpos2, point_do_simulation. cbn -[norm2 Rminus Rdiv Rplus Q2R].
      rewrite Q2R_minus_half, Q2R_zero.
      replace (1 / 2 + - (1 / 2) - 0, 0 + 0 - 0) with (0, 0) by (f_equal; lra).
      rewrite norm2_x_axis. apply Rabs_R0. }
    destruct Hcase as [Hsu Hdn]; [lra|lra|].
    subst done. exists env', ob, reward, info. split; [exact Hs|exact Hsu].
  - destruct (pm_step_info_before_simulation (R * R) point_qpos2 point_zero_qvel2
                point_body_com point_do_simulation (pm_env_at (0, 0)) (PMIndex 6)
                (Q2R (1#2), Q2R 0) ltac:(reflexivity))
      as (env' & ob & reward & done & info & Hs & Hd & _ & Hob & _ & _ & Hcase).
    assert (Hd' : info_dist info = 0).
    { rewrite Hd. unfold get_delta, point_body_com, point_zero_qvel2. cbn -[norm2 Rminus Rdiv Rplus Q2R].
      replace (0 - 0, 0 - 0) with (0, 0) by (f_equal; lra).
      rewrite norm2_x_axis. apply Rabs_R0. }
    assert (Hg : goal_dist ob (goals (pm_controls (R * R) (pm_env_at (0, 0)))) = 1 / 2).
    { rewrite Hob. unfold point_qpos2, point_do_simulation. cbn -[norm2 Rminus Rdiv Rplus Q2R].
      rewrite Q2R_half, Q2R_zero.
      replace (0 + 1 / 2 - 0, 0 + 0 - 0) with (1 / 2, 0) by (f_equal; lra).
      rewrite norm2_x_axis. unfold Rabs. destruct (Rcase_abs _); lra. }
    destruct Hcase as [Hsu Hdn]; [lra|lra|].
    subst done. exists env', ob, reward, info. split; [exact Hs|exact Hsu].
Defined.

(** ** C5: the peg reward *)

Lemma sumsq_nonneg (v : list R) : 0 <= sumsq v.
Proof.
  induction v as [|x v IH]; simpl; [lra|].
  pose proof (Rle_0_sqr x) as Hx. unfold Rsqr in Hx. lra.
Qed.

Lemma vnorm_zero_iff (v : list R) : vnorm v = 0 <-> Forall (fun x => x = 0) v.
Proof.
  unfold vnorm. split.
  - intros H. apply sqrt_eq_0 in H; [|apply sumsq_nonneg].
    induction v as [|x v IH]; [constructor|].
    simpl in H. pose proof (sumsq_nonneg v) as Hv.
    pose proof (Rle_0_sqr x) as Hx. unfold Rsqr in Hx.
    assert (Hxx : x * x = 0) by lra.
    constructor.
    + destruct (Rmult_integral x x Hxx); assumption.
    + apply IH. lra.
  - intros H. induction H as [|x v Hx _ IH]; [apply sqrt_0|].
    apply sqrt_eq_0 in IH; [|apply sumsq_nonneg].
    change (sqrt (x * x + sumsq v) = 0). rewrite Hx, IH. rewrite Rmult_0_l, Rplus_0_l. apply sqrt_0.
Qed.

Lemma Q2R_zero_iff (x : Q) : Q2R x = 0 <-> (x == 0)%Q.
Proof.
  split.
  - intros H. apply eqR_Qeq. rewrite H. symmetry. apply Q2R_zero.
  - intros H. rewrite (Qeq_eqR x 0 H). apply Q2R_zero.
Qed.

Lemma Ropp_eq_0_iff (x : R) : - x = 0 <-> x = 0.
Proof. split; intros; lra. Qed.

(** C5 (as the code does it).  A peg step that returns has reward
    [-||v||], [v] being the control vector handed to [do_simulation]: the
    action itself in the continuous configuration, and in the discrete
    configuration the table entry followed by the current goal value.  So a
    discrete step has reward 0 exactly when the entry is all-zero and the
    goal is 0. *)
Theorem peg_reward_is_control_norm (Sim Obs : Type) (pre : bool -> Sim -> Sim)
    (dosim : Sim -> list R -> nat -> Sim) (obs : Sim -> Obs) (seta : Obs -> list R -> Obs)
    (env : PegEnv Sim) :
  (peg_discrete Sim env = false -> forall v : list R,
     exists env' ob done info,
       peg_step Sim Obs pre dosim obs seta env (PegVec v) = (env', Ok (ob, - vnorm v, done, info)) /\
       (- vnorm v = 0 <-> Forall (fun x => x = 0) v)) /\
  (peg_discrete Sim env = true -> forall i x y z,
     py_index (peg_table Sim env) i = Ok (x, y, z) ->
     exists env' ob done info,
       peg_step Sim Obs pre dosim obs seta env (PegIndex i)
         = (env', Ok (ob, - vnorm [Q2R x; Q2R y; Q2R z; peg_goal Sim env], done, info)) /\
       (- vnorm [Q2R x; Q2R y; Q2R z; peg_goal Sim env] = 0 <->
          (x == 0)%Q /\ (y == 0)%Q /\ (z == 0)%Q /\ peg_goal Sim env = 0)).
Proof.
  split.
  - intros Hd v. unfold peg_step, peg_resolve_action. rewrite Hd.
    destruct (counter_step _ _ _) as [rc done].
    eexists _, _, done, _. split; [reflexivity|].
    rewrite Ropp_eq_0_iff. apply vnorm_zero_iff.
  - intros Hd i x y z Hi. unfold peg_step, peg_resolve_action. rewrite Hd, Hi.
    destruct (counter_step _ _ _) as [rc done].
    eexists _, _, done, _. split; [reflexivity|].
    rewrite Ropp_eq_0_iff, vnorm_zero_iff, !Forall_cons_iff, !Q2R_zero_iff.
    split.
    + intros (Hx & Hy & Hz & Hg & _). tauto.
    + intros (Hx & Hy & Hz & Hg). repeat split; try assumption. constructor.
Qed.

(** Witness of C5: in the discrete [id_less=False] table, entry 13 is the
    all-zero action; with goal 0 the step's reward is [-||(0, 0, 0, 0)||]. *)
Lemma peg_reward_is_control_norm_witness :
  py_index (peg_a_dict 1 false) 13 = Ok (0, 0, 0)%Q /\
  exists env' ob done info,
    run_peg_step (peg_env_cfg true (peg_a_dict 1 false) false 0) (PegIndex 13)
      = (env', Ok (ob, - vnorm [Q2R 0; Q2R 0; Q2R 0; 0], done, info)) /\
    (- vnorm [Q2R 0; Q2R 0; Q2R 0; 0] = 0 <->
       (0 == 0)%Q /\ (0 == 0)%Q /\ (0 == 0)%Q /\ (0 : R) = 0).
Proof.
  split; [reflexivity|].
  apply (proj2 (peg_reward_is_control_norm unit unit unit_prelude unit_do_simulation
                  unit_get_obs unit_obs_set_a (peg_env_cfg true (peg_a_dict 1 false) false 0))
           eq_refl 13%Z 0%Q 0%Q 0%Q eq_refl).
Defined.

Lemma vnorm_goal_only (g : R) : 0 <= g -> vnorm [Q2R 0; Q2R 0; Q2R 0; g] = g.
Proof.
  intros Hg. unfold vnorm, sumsq. cbn [fold_right]. rewrite Q2R_zero.
  replace (0 * 0 + (0 * 0 + (0 * 0 + (g * g + 0)))) with (g * g) by ring.
  apply sqrt_square. exact Hg.
Qed.

(** C5 fails in the discrete configuration: with goal 0.01, stepping with
    entry 13 of the [id_less=False] table, the all-zero action, gives reward
    [-0.01], not 0. *)
Lemma peg_zero_entry_nonzero_reward :
  py_index (peg_a_dict 1 false) 13 = Ok (0, 0, 0)%Q /\
  exists env' ob done info,
    run_peg_step (peg_env_cfg true (peg_a_dict 1 false) false (1 / 100)) (PegIndex 13)
      = (env', Ok (ob, - (1 / 100), done, info)) /\
    - (1 / 100) <> 0.
Proof.
  assert (H13 : py_index (peg_a_dict 1 false) 13 = Ok (0, 0, 0)%Q) by reflexivity.
  split; [exact H13|].
  unfold run_peg_step, peg_step, peg_resolve_action.
  cbn [peg_discrete peg_table peg_goal peg_env_cfg]. rewrite H13.
  rewrite (vnorm_goal_only (1 / 100)) by lra.
  destruct (counter_step _ _ _) as [rc done].
  eexists _, _, done, _. split; [reflexivity|lra].
Qed.

(** ** C6: the peg reach counter *)

Lemma mod2_succ (n : nat) : (S n) mod 2 = (1 - n mod 2)%nat.
Proof.
  pose proof (Nat.div_mod_eq n 2). pose proof (Nat.div_mod_eq (S n) 2).
  pose proof (Nat.mod_upper_bound n 2 ltac:(lia)).
  pose proof (Nat.mod_upper_bound (S n) 2 ltac:(lia)).
  lia.
Qed.

(** One counter update, read against the run of zero rewards it extends:
    the counter is the run length ([done_on_goal] unset) or its parity
    ([done_on_goal] set). *)
Lemma counter_step_streak (done_on_goal : bool) (n : nat) (r : R) :
  counter_step done_on_goal (if done_on_goal then n mod 2 else n) r =
  (let n' := if Reqb r 0 then S n else 0%nat in
   (if done_on_goal then n' mod 2 else n',
    done_on_goal && Reqb r 0 && Nat.eqb (n' mod 2) 0)).
Proof.
  unfold counter_step, reach_update, done_check.
  destruct done_on_goal, (Reqb r 0); cbn zeta.
  - assert (Hm : n mod 2 = 0%nat \/ n mod 2 = 1%nat)
      by (pose proof (Nat.mod_upper_bound n 2 ltac:(lia)); lia).
    rewrite mod2_succ.
    destruct Hm as [Hm|Hm]; rewrite Hm; reflexivity.
  - destruct (n mod 2); reflexivity.
  - destruct n; simpl; [reflexivity|]. now rewrite Nat.add_1_r.
  - destruct n; reflexivity.
Qed.

Lemma peg_step_counter (Sim Obs : Type) (pre : bool -> Sim -> Sim)
    (dosim : Sim -> list R -> nat -> Sim) (obs : Sim -> Obs) (seta : Obs -> list R -> Obs)
    (env env' : PegEnv Sim) (a : PegAction) (ob : Obs) (r : R) (d : bool) (info : PegInfo) :
  peg_step Sim Obs pre dosim obs seta env a = (env', Ok (ob, r, d, info)) ->
  (reach_counts Sim env', d) = counter_step (peg_done_on_goal Sim env) (reach_counts Sim env) r /\
  peg_done_on_goal Sim env' = peg_done_on_goal Sim env.
Proof.
  unfold peg_step.
  destruct (peg_resolve_action Sim env a) as [act|e]; [|discriminate].
  destruct (counter_step _ _ _) as [rc done] eqn:E.
  intros H. inversion H; subst. split; [exact (eq_sym E)|reflexivity].
Qed.

Lemma peg_run_counter (Sim Obs : Type) (pre : bool -> Sim -> Sim)
    (dosim : Sim -> list R -> nat -> Sim) (obs : Sim -> Obs) (seta : Obs -> list R -> Obs)
    (acts : list PegAction) :
  forall (env env' : PegEnv Sim) (n : nat) (rs : list R) (ds : list bool),
  reach_counts Sim env = (if peg_done_on_goal Sim env then n mod 2 else n) ->
  peg_run pre dosim obs seta env acts = Some (env', rs, ds) ->
  reach_counts Sim env' =
    (if peg_done_on_goal Sim env then zero_streak_from n rs mod 2 else zero_streak_from n rs) /\
  ds = streak_dones (peg_done_on_goal Sim env) n rs /\
  peg_done_on_goal Sim env' = peg_done_on_goal Sim env.
Proof.
  induction acts as [|a acts IH]; intros env env' n rs ds Hrc Hrun.
  - simpl in Hrun. inversion Hrun; subst. auto.
  - simpl in Hrun.
    destruct (peg_step Sim Obs pre dosim obs seta env a) as [env1 [[[[ob r] d] info]|e]] eqn:Hs;
      [|discriminate].
    destruct (peg_run pre dosim obs seta env1 acts) as [[[env2 rs'] ds']|] eqn:Hr;
      [|discriminate].
    inversion Hrun; subst env2 rs ds. clear Hrun.
    destruct (peg_step_counter Sim Obs pre dosim obs seta env env1 a ob r d info Hs)
      as [Hc Hdog].
    rewrite Hrc, counter_step_streak in Hc. cbn zeta in Hc.
    injection Hc as Hc1 Hc2.
    destruct (IH env1 env' (if Reqb r 0 then S n else 0%nat) rs' ds') as (H1 & H2 & H3).
    + rewrite Hdog. exact Hc1.
    + exact Hr.
    + rewrite Hdog in H1, H2, H3. simpl. subst d.
      split; [exact H1|]. split; [rewrite H2; reflexivity|]. congruence.
Qed.

(** C6 (as the code does it).  Over the steps since [reset_model] (counter
    0), the counter increments on each zero reward and drops to 0 on any
    other reward, and [done] is raised exactly when [done_on_goal] is set and
    the updated counter exceeds 1, which also resets it.  So without
    [done_on_goal] the counter is the length of the trailing run of zero
    rewards and [done] is never raised; with it the counter is that length
    mod 2 and [done] is raised on the steps where the run reaches a positive
    even length. *)
Theorem reach_counter_run (Sim Obs : Type) (pre : bool -> Sim -> Sim)
    (dosim : Sim -> list R -> nat -> Sim) (obs : Sim -> Obs) (seta : Obs -> list R -> Obs)
    (env env' : PegEnv Sim) (acts : list PegAction) (rs : list R) (ds : list bool) :
  reach_counts Sim env = 0%nat ->
  peg_run pre dosim obs seta env acts = Some (env', rs, ds) ->
  reach_counts Sim env' =
    (if peg_done_on_goal Sim env then zero_streak_from 0 rs mod 2 else zero_streak_from 0 rs) /\
  ds = streak_dones (peg_done_on_goal Sim env) 0 rs /\
  (forall rc r, counter_step (peg_done_on_goal Sim env) rc r =
     (let rc1 := reach_update rc r in
      if peg_done_on_goal Sim env && Nat.ltb 1 rc1 then (0%nat, true) else (rc1, false))).
Proof.
  intros H0 Hrun.
  destruct (peg_run_counter Sim Obs pre dosim obs seta acts env env' 0 rs ds) as (H1 & H2 & _).
  - rewrite H0. destruct (peg_done_on_goal Sim env); reflexivity.
  - exact Hrun.
  - split; [exact H1|]. split; [exact H2|]. reflexivity.
Qed.

Lemma vnorm_single_zero : vnorm [0] = 0.
Proof.
  unfold vnorm, sumsq. cbn [fold_right].
  rewrite Rmult_0_l, Rplus_0_l. apply sqrt_0.
Qed.

Lemma Reqb_refl (x : R) : Reqb x x = true.
Proof. apply Reqb_true_iff. reflexivity. Qed.

Lemma reach_update_zero (rc : nat) : reach_update rc 0 = S rc.
Proof.
  unfold reach_update. rewrite Reqb_refl.
  destruct rc; [reflexivity|]. simpl. now rewrite Nat.add_1_r.
Qed.

(** A continuous step with the zero action [[0]] has reward
    [-||[0]|| = 0]: the counter goes up by one before the done check. *)
Lemma peg_run_zero_action {Sim Obs : Type} (pre : bool -> Sim -> Sim)
    (dosim : Sim -> list R -> nat -> Sim) (obs : Sim -> Obs) (seta : Obs -> list R -> Obs)
    (env : PegEnv Sim) (rest : list PegAction) :
  peg_discrete Sim env = false ->
  peg_run pre dosim obs seta env (PegVec [0] :: rest) =
  let '(rc, done) := done_check (peg_done_on_goal Sim env) (S (reach_counts Sim env)) in
  match peg_run pre dosim obs seta
          (peg_with_sim Sim env (dosim (pre (peg_free Sim env) (peg_sim Sim env)) [0]
                                   (peg_frame_skip Sim env)) rc) rest with
  | Some (e, rs, ds) => Some (e, 0 :: rs, done :: ds)
  | None => None
  end.
Proof.
  intros Hd. cbn [peg_run]. unfold peg_step, peg_resolve_action. rewrite Hd.
  rewrite vnorm_single_zero, Ropp_0. unfold counter_step. rewrite reach_update_zero.
  destruct (done_check _ _) as [rc done]. reflexivity.
Qed.

(** Runs continuous peg steps with the zero action, one at a time. *)
Ltac run_zero_steps :=
  unfold run_peg;
  repeat (rewrite peg_run_zero_action by reflexivity; cbn -[peg_run]);
  cbn [peg_run];
  reflexivity.

(** Witness of C6: three zero-reward steps with [done_on_goal] set. *)
Lemma reach_counter_run_witness :
  reach_counts unit (peg_env_cfg false [] true 0) = 0%nat /\
  run_peg (peg_env_cfg false [] true 0) [PegVec [0]; PegVec [0]; PegVec [0]]
    = Some (mkPegEnv unit false [] true false false 0 10 1 tt, [0; 0; 0], [false; true; false]) /\
  reach_counts unit (mkPegEnv unit false [] true false false 0 10 1 tt) =
    (if peg_done_on_goal unit (peg_env_cfg false [] true 0)
     then zero_streak_from 0 [0; 0; 0] mod 2 else zero_streak_from 0 [0; 0; 0]) /\
  [false; true; false] = streak_dones (peg_done_on_goal unit (peg_env_cfg false [] true 0)) 0 [0; 0; 0].
Proof.
  assert (Hrun : run_peg (peg_env_cfg false [] true 0) [PegVec [0]; PegVec [0]; PegVec [0]]
    = Some (mkPegEnv unit false [] true false false 0 10 1 tt, [0; 0; 0], [false; true; false]))
    by run_zero_steps.
  split; [reflexivity|]. split; [exact Hrun|].
  destruct (reach_counter_run unit unit unit_prelude unit_do_simulation unit_get_obs
              unit_obs_set_a (peg_env_cfg false [] true 0)
              (mkPegEnv unit false [] true false false 0 10 1 tt)
              [PegVec [0]; PegVec [0]; PegVec [0]] [0; 0; 0] [false; true; false] eq_refl Hrun)
    as (H1 & H2 & _).
  split; [exact H1|exact H2].
Defined.

(** C6 fails with [done_on_goal] set: after two zero-reward steps the run
    of zero rewards has length 2, but the second step raised [done] and
    reset the counter to 0. *)
Lemma reach_counter_not_streak_length :
  run_peg (peg_env_cfg false [] true 0) [PegVec [0]; PegVec [0]]
    = Some (mkPegEnv unit false [] true false false 0 10 0 tt, [0; 0], [false; true]) /\
  reach_counts unit (mkPegEnv unit false [] true false false 0 10 0 tt) = 0%nat /\
  zero_streak_from 0 [0; 0] = 2%nat.
Proof.
  split; [run_zero_steps|]. split; [reflexivity|].
  cbn [zero_streak_from]. rewrite Reqb_refl. reflexivity.
Qed.

(** ** C7: the peg goal sampler *)

Lemma good_goal_bounds (v : R) : good_goal v = true -> - (26 / 100) < v < 26 / 100.
Proof.
  unfold good_goal, Rltb.
  destruct (Rlt_dec v (26 / 100)), (Rlt_dec (- (26 / 100)) v); simpl; intros H;
    try discriminate; lra.
Qed.

(** C7.  [_get_goal] draws batches of four candidates with
    [uniform(goal_low, goal_high)], moves on to a fresh batch when every
    candidate of the current one is rejected, and returns the first
    candidate of the first batch that has one satisfying [good_goal]; so a
    returned value lies strictly between -0.26 and 0.26. *)
Theorem get_goal_first_good (RNG : Type) (uniform : RNG -> R -> R -> nat -> list R * RNG)
    (goal_low goal_high : R) (fuel : nat) (g g' : RNG) (v : R) :
  get_goal RNG uniform goal_low goal_high fuel g = Some (v, g') ->
  - (26 / 100) < v < 26 / 100 /\
  exists n, (n < fuel)%nat /\
    (forall m, (m < n)%nat ->
       find good_goal (fst (goal_batch RNG uniform goal_low goal_high
                              (goal_rng_after RNG uniform goal_low goal_high m g))) = None) /\
    find good_goal (fst (goal_batch RNG uniform goal_low goal_high
                           (goal_rng_after RNG uniform goal_low goal_high n g))) = Some v /\
    g' = goal_rng_after RNG uniform goal_low goal_high (S n) g.
Proof.
  revert g. induction fuel as [|fuel IH]; intros g H; [discriminate|].
  cbn [get_goal] in H.
  destruct (goal_batch RNG uniform goal_low goal_high g) as [goals g1] eqn:Eb.
  destruct (find good_goal goals) as [v'|] eqn:Ef.
  - injection H as <- <-.
    split; [apply good_goal_bounds; exact (proj2 (find_some _ _ Ef))|].
    exists 0%nat. split; [lia|]. split; [intros m Hm; lia|].
    cbn [goal_rng_after]. rewrite Eb. split; [exact Ef|reflexivity].
  - destruct (IH g1 H) as (Hb & n & Hn & Hbefore & Hat & Hg').
    split; [exact Hb|].
    exists (S n). split; [lia|]. split.
    + intros [|m] Hm; cbn [goal_rng_after].
      * rewrite Eb. exact Ef.
      * rewrite Eb. apply Hbefore. lia.
    + cbn [goal_rng_after]. rewrite Eb. split; [exact Hat|exact Hg'].
Qed.

Lemma good_goal_half : good_goal (1 / 2) = false.
Proof.
  unfold good_goal, Rltb. destruct (Rlt_dec (1 / 2) (26 / 100)); [lra|reflexivity].
Qed.

Lemma good_goal_zero : good_goal 0 = true.
Proof.
  unfold good_goal, Rltb.
  destruct (Rlt_dec 0 (26 / 100)); [|lra].
  destruct (Rlt_dec (- (26 / 100)) 0); [reflexivity|lra].
Qed.

(** Witness of C7: with [uniform(-1, 1)] the stand-in first returns the
    batch [0.5, 0.5, 0.5, 0.5], all rejected, then [0, 0, 0, 0]. *)
Lemma get_goal_first_good_witness :
  get_goal nat stand_in_uniform (-1) 1 5%nat 0%nat = Some (0, 2%nat) /\
  - (26 / 100) < 0 < 26 / 100 /\
  exists n, (n < 5)%nat /\
    (forall m, (m < n)%nat ->
       find good_goal (fst (goal_batch nat stand_in_uniform (-1) 1
                              (goal_rng_after nat stand_in_uniform (-1) 1 m 0%nat))) = None) /\
    find good_goal (fst (goal_batch nat stand_in_uniform (-1) 1
                           (goal_rng_after nat stand_in_uniform (-1) 1 n 0%nat))) = Some 0 /\
    2%nat = goal_rng_after nat stand_in_uniform (-1) 1 (S n) 0%nat.
Proof.
  assert (Hrun : get_goal nat stand_in_uniform (-1) 1 5%nat 0%nat = Some (0, 2%nat)).
  { cbn [get_goal goal_batch stand_in_uniform Nat.eqb repeat find].
    replace (-1 + (1 - -1) * (3 / 4)) with (1 / 2) by lra.
    replace ((-1 + 1) / 2) with 0 by lra.
    rewrite good_goal_half, good_goal_zero. reflexivity. }
  split; [exact Hrun|].
  exact (get_goal_first_good nat stand_in_uniform (-1) 1 5%nat 0%nat 2%nat 0 Hrun).
Defined.

(** ** C8 and C10: the peg initial-state sampler *)

(** The two column assignments of [_get_state] fused into one pass: row [i]
    uses the [i]-th spread draw in both columns. *)
Lemma set_cols_fused (rows : list (R * R * R)) (spread extra : list R) :
  set_col2 (set_col1 rows spread) spread extra =
  map2 (fun r ue => let '(s0, _, _) := r in
          (s0, - s0 - sign s0 * fst ue, sign s0 * fst ue + snd ue))
       rows (combine spread extra).
Proof.
  revert spread extra.
  induction rows as [|[[s0 s1] s2] rows IH]; intros [|u spread] [|e extra];
    try reflexivity.
  unfold set_col2, set_col1, map2 in *. cbn [combine map fst snd].
  f_equal. apply IH.
Qed.

Lemma rows3_in_first (n : nat) : forall (l : list R) (a b c : R),
  (length l <= n)%nat -> In (a, b, c) (rows3 l) -> In a l.
Proof.
  induction n as [|n IH]; intros l a b c Hlen Hin.
  - destruct l; [contradiction|simpl in Hlen; lia].
  - destruct l as [|x [|y [|z rest]]]; try contradiction.
    destruct Hin as [Heq|Hin].
    + injection Heq as -> -> ->. left. reflexivity.
    + right. right. right. apply (IH rest a b c); [simpl in Hlen; lia|exact Hin].
Qed.

Lemma state_batch_draws (RNG : Type) (uniform : RNG -> R -> R -> nat -> list R * RNG) (g : RNG) :
  state_batch RNG uniform g =
  let '(raw, spread, extra, g3) := state_draws RNG uniform g in
  (set_col2 (set_col1 (rows3 raw) spread) spread extra, g3).
Proof.
  unfold state_batch, state_draws.
  destruct (uniform g _ _ 12%nat) as [raw g1].
  destruct (uniform g1 _ _ 4%nat) as [spread g2].
  destruct (uniform g2 _ _ 4%nat) as [extra g3].
  reflexivity.
Qed.

(** Every candidate of a batch is built from the draws of that batch. *)
Lemma in_state_batch (RNG : Type) (uniform : RNG -> R -> R -> nat -> list R * RNG)
    (g g3 : RNG) (raw spread extra : list R) (st : R * R * R) :
  state_draws RNG uniform g = (raw, spread, extra, g3) ->
  In st (fst (state_batch RNG uniform g)) ->
  exists u e, In (fst (fst st)) raw /\ In u spread /\ In e extra /\
    st = (fst (fst st), - fst (fst st) - sign (fst (fst st)) * u,
          sign (fst (fst st)) * u + e).
Proof.
  intros Hd Hin. rewrite state_batch_draws, Hd, set_cols_fused in Hin.
  cbn [fst] in Hin. unfold map2 in Hin.
  apply in_map_iff in Hin as ([[[s0 s1] s2] [u e]] & Hst & Hp).
  cbn [fst snd] in Hst. subst st. cbn [fst].
  exists u, e. split; [|split; [|split]].
  - apply (rows3_in_first (length raw) raw s0 s1 s2); [lia|].
    exact (in_combine_l _ _ _ _ Hp).
  - exact (in_combine_l _ _ _ _ (in_combine_r _ _ _ _ Hp)).
  - exact (in_combine_r _ _ _ _ (in_combine_r _ _ _ _ Hp)).
  - reflexivity.
Qed.

Lemma good_state_bounds (st : R * R * R) :
  good_state st = true -> - (PI / 2) < fst (fst st) < PI / 2.
Proof.
  destruct st as [[s0 s1] s2]. unfold good_state, Rltb. cbn [fst].
  destruct (Rlt_dec s0 (PI / 2)), (Rlt_dec (- PI / 2) s0); simpl; intros H;
    try discriminate; lra.
Qed.

(** C8.  [_get_state] draws batches of four 3-joint candidates (first joint
    from [uniform(-1.5, 1.5)], second [-first - sign(first) * spread] with
    [spread] from [uniform(0, pi/2)], third [sign(first) * spread] plus a
    draw from [uniform(0, pi/4)]) and returns the first candidate satisfying
    [good_state] in the first batch that has one; so a returned state's
    first joint lies strictly between [-pi/2] and [pi/2]. *)
Theorem get_state_first_good (RNG : Type) (uniform : RNG -> R -> R -> nat -> list R * RNG)
    (fuel : nat) (g g' : RNG) (st : R * R * R) :
  get_state RNG uniform fuel g = Some (st, g') ->
  - (PI / 2) < fst (fst st) < PI / 2 /\
  exists n, (n < fuel)%nat /\
    (forall m, (m < n)%nat ->
       find good_state (fst (state_batch RNG uniform (state_rng_after RNG uniform m g))) = None) /\
    find good_state (fst (state_batch RNG uniform (state_rng_after RNG uniform n g))) = Some st /\
    g' = state_rng_after RNG uniform (S n) g /\
    exists raw spread extra g3 u e,
      state_draws RNG uniform (state_rng_after RNG uniform n g) = (raw, spread, extra, g3) /\
      In (fst (fst st)) raw /\ In u spread /\ In e extra /\
      st = (fst (fst st), - fst (fst st) - sign (fst (fst st)) * u,
            sign (fst (fst st)) * u + e).
Proof.
  revert g. induction fuel as [|fuel IH]; intros g H; [discriminate|].
  cbn [get_state] in H.
  destruct (state_batch RNG uniform g) as [states g1] eqn:Eb.
  destruct (find good_state states) as [st'|] eqn:Ef.
  - injection H as <- <-.
    destruct (find_some _ _ Ef) as [Hin Hgood].
    split; [apply good_state_bounds; exact Hgood|].
    exists 0%nat. split; [lia|]. split; [intros m Hm; lia|].
    cbn [state_rng_after]. rewrite Eb. split; [exact Ef|]. split; [reflexivity|].
    destruct (state_draws RNG uniform g) as [[[raw spread] extra] g3] eqn:Ed.
    assert (Hin' : In st' (fst (state_batch RNG uniform g))) by (rewrite Eb; exact Hin).
    destruct (in_state_batch RNG uniform g g3 raw spread extra st' Ed Hin')
      as (u & e & H1 & H2 & H3 & H4).
    exists raw, spread, extra, g3, u, e. auto.
  - destruct (IH g1 H) as (Hb & n & Hn & Hbefore & Hat & Hg' & Hdraws).
    split; [exact Hb|].
    exists (S n). split; [lia|]. split.
    + intros [|m] Hm; cbn [state_rng_after].
      * rewrite Eb. exact Ef.
      * rewrite Eb. apply Hbefore. lia.
    + cbn [state_rng_after]. rewrite Eb. auto.
Qed.

Section UniformDraws.

Variable RNG : Type.
Variable uniform : RNG -> R -> R -> nat -> list R * RNG.

(** [uniform(low, high, size=n)] returns [n] values in [[low, high)]. *)
Hypothesis uniform_range : forall g low high n, low < high ->
  length (fst (uniform g low high n)) = n /\
  Forall (fun x => low <= x < high) (fst (uniform g low high n)).

Lemma state_draws_first (g g3 : RNG) (raw spread extra : list R) :
  state_draws RNG uniform g = (raw, spread, extra, g3) ->
  length raw = 12%nat /\ Forall (fun x => - (3 / 2) <= x < 3 / 2) raw /\
  length spread = 4%nat /\ length extra = 4%nat.
Proof.
  unfold state_draws.
  pose proof (uniform_range g (- (3 / 2)) (3 / 2) 12 ltac:(lra)) as [L1 F1].
  destruct (uniform g (- (3 / 2)) (3 / 2) 12) as [raw' g1].
  pose proof (uniform_range g1 0 (PI / 2) 4 PI2_RGT_0) as [L2 _].
  destruct (uniform g1 0 (PI / 2) 4) as [spread' g2].
  pose proof (uniform_range g2 0 (PI / 4) 4 PI4_RGT_0) as [L3 _].
  destruct (uniform g2 0 (PI / 4) 4) as [extra' g3'].
  intros H. injection H as <- <- <- <-. auto.
Qed.

(** With first joints drawn from [[-1.5, 1.5)], every candidate of a
    batch passes [good_state], since [1.5 < pi/2]. *)
Lemma state_batch_all_good (g : RNG) :
  Forall (fun st => good_state st = true) (fst (state_batch RNG uniform g)).
Proof.
  apply Forall_forall. intros st Hin.
  destruct (state_draws RNG uniform g) as [[[raw spread] extra] g3] eqn:Ed.
  destruct (in_state_batch RNG uniform g g3 raw spread extra st Ed Hin)
    as (u & e & Hraw & _ & _ & _).
  destruct (state_draws_first g g3 raw spread extra Ed) as (_ & Hr & _ & _).
  rewrite Forall_forall in Hr. specialize (Hr _ Hraw).
  pose proof PI2_3_2 as Hpi.
  destruct st as [[s0 s1] s2]. cbn [fst] in Hr. unfold good_state, Rltb.
  destruct (Rlt_dec s0 (PI / 2)); [|lra].
  destruct (Rlt_dec (- PI / 2) s0); [reflexivity|lra].
Qed.

Lemma state_batch_nonempty (g : RNG) :
  exists st rest, fst (state_batch RNG uniform g) = st :: rest.
Proof.
  destruct (state_draws RNG uniform g) as [[[raw spread] extra] g3] eqn:Ed.
  destruct (state_draws_first g g3 raw spread extra Ed) as (Lr & _ & Ls & Le).
  rewrite state_batch_draws, Ed, set_cols_fused. cbn [fst].
  destruct raw as [|a [|b [|c raw]]]; simpl in Lr; try lia.
  destruct spread as [|u spread]; simpl in Ls; try lia.
  destruct extra as [|e extra]; simpl in Le; try lia.
  eexists _, _. reflexivity.
Qed.

(** One iteration of the [while True] loop suffices: [_get_state] returns
    the first candidate of the first batch. *)
Lemma get_state_returns_head (fuel : nat) (g : RNG) :
  (0 < fuel)%nat ->
  exists st rest, fst (state_batch RNG uniform g) = st :: rest /\
    get_state RNG uniform fuel g = Some (st, snd (state_batch RNG uniform g)).
Proof.
  intros Hf.
  destruct (state_batch_nonempty g) as (st & rest & Hsr).
  pose proof (state_batch_all_good g) as Hall.
  exists st, rest. split; [exact Hsr|].
  destruct fuel as [|fuel]; [lia|]. cbn [get_state].
  destruct (state_batch RNG uniform g) as [states g1]. cbn [fst snd] in *.
  subst states. inversion Hall as [|x l Hgood Hrest]; subst.
  cbn [find]. rewrite Hgood. reflexivity.
Qed.

End UniformDraws.

(** C10.  When [uniform(low, high, size=n)] returns [n] values in
    [[low, high)], every candidate of a [_get_state] batch passes
    [good_state] (its first joint is in [[-1.5, 1.5)] and [1.5 < pi/2]), so
    the loop ends in its first iteration and returns the first candidate of
    the first batch. *)
Theorem get_state_single_batch (RNG : Type) (uniform : RNG -> R -> R -> nat -> list R * RNG)
    (uniform_range : forall g low high n, low < high ->
       length (fst (uniform g low high n)) = n /\
       Forall (fun x => low <= x < high) (fst (uniform g low high n)))
    (fuel : nat) (g : RNG) :
  (0 < fuel)%nat ->
  Forall (fun st => good_state st = true) (fst (state_batch RNG uniform g)) /\
  exists st rest, fst (state_batch RNG uniform g) = st :: rest /\
    get_state RNG uniform fuel g = Some (st, snd (state_batch RNG uniform g)).
Proof.
  intros Hf. split.
  - apply state_batch_all_good. exact uniform_range.
  - apply get_state_returns_head; assumption.
Qed.

Lemma stand_in_uniform_range : forall (g : nat) low high n, low < high ->
  length (fst (stand_in_uniform g low high n)) = n /\
  Forall (fun x => low <= x < high) (fst (stand_in_uniform g low high n)).
Proof.
  intros g low high n Hlh. unfold stand_in_uniform. cbn [fst].
  split; [apply repeat_length|].
  apply Forall_forall. intros x Hx. apply repeat_spec in Hx. subst x.
  destruct (Nat.eqb g 0); lra.
Qed.

(** Witness of C10 on the stand-in generator, one iteration allowed. *)
Lemma get_state_single_batch_witness :
  (0 < 1)%nat /\
  Forall (fun st => good_state st = true) (fst (state_batch nat stand_in_uniform 0%nat)) /\
  exists st rest, fst (state_batch nat stand_in_uniform 0%nat) = st :: rest /\
    get_state nat stand_in_uniform 1%nat 0%nat = Some (st, snd (state_batch nat stand_in_uniform 0%nat)).
Proof.
  split; [lia|].
  exact (get_state_single_batch nat stand_in_uniform stand_in_uniform_range 1%nat 0%nat
           ltac:(lia)).
Defined.

(** Witness of C8 on the stand-in generator. *)
Lemma get_state_first_good_witness :
  exists st g',
    get_state nat stand_in_uniform 1%nat 0%nat = Some (st, g') /\
    - (PI / 2) < fst (fst st) < PI / 2 /\
    exists n, (n < 1)%nat /\
      (forall m, (m < n)%nat ->
         find good_state (fst (state_batch nat stand_in_uniform
                                 (state_rng_after nat stand_in_uniform m 0%nat))) = None) /\
      find good_state (fst (state_batch nat stand_in_uniform
                              (state_rng_after nat stand_in_uniform n 0%nat))) = Some st /\
      g' = state_rng_after nat stand_in_uniform (S n) 0%nat /\
      exists raw spread extra g3 u e,
        state_draws nat stand_in_uniform (state_rng_after nat stand_in_uniform n 0%nat)
          = (raw, spread, extra, g3) /\
        In (fst (fst st)) raw /\ In u spread /\ In e extra /\
        st = (fst (fst st), - fst (fst st) - sign (fst (fst st)) * u,
              sign (fst (fst st)) * u + e).
Proof.
  destruct (get_state_returns_head nat stand_in_uniform stand_in_uniform_range 1%nat 0%nat
              ltac:(lia)) as (st & rest & _ & Hrun).
  exists st, (snd (state_batch nat stand_in_uniform 0%nat)). split; [exact Hrun|].
  exact (get_state_first_good nat stand_in_uniform 1%nat 0%nat _ st Hrun).
Defined.

(* ------------------------------------------------------------------ *)
(** ** Further properties: [Controls] *)

Lemma rows2_in (n : nat) : forall (l : list R) (a b : R),
  (length l <= n)%nat -> In (a, b) (rows2 l) -> In a l /\ In b l.
Proof.
  induction n as [|n IH]; intros l a b Hlen Hin.
  - destruct l; [contradiction|simpl in Hlen; lia].
  - destruct l as [|x [|y rest]]; try contradiction.
    destruct Hin as [Heq|Hin].
    + injection Heq as -> ->. split; [left|right; left]; reflexivity.
    + destruct (IH rest a b) as [Ha Hb]; [simpl in Hlen; lia|exact Hin|].
      split; right; right; assumption.
Qed.

Lemma rows2_length (n : nat) : forall (l : list R), length l = (2 * n)%nat -> length (rows2 l) = n.
Proof.
  induction n as [|n IH]; intros l Hlen.
  - destruct l; [reflexivity|simpl in Hlen; lia].
  - destruct l as [|x [|y rest]]; simpl in Hlen; try lia.
    simpl. f_equal. apply IH. lia.
Qed.

Lemma norm2_lt_10 (a b : R) : 1 <= a <= 5 -> 1 <= b <= 5 -> norm2 (a, b) < 10.
Proof.
  intros Ha Hb. unfold norm2.
  rewrite <- (sqrt_square 10) by lra.
  apply sqrt_lt_1_alt. split; [nra|nra].
Qed.

Lemma controls_goals_accepts_first (RNG : Type) (uniform : RNG -> R -> R -> nat -> list R * RNG)
    (k_goals fuel : nat) (g : RNG) :
  (forall v, In v (fst (uniform g 5 1 (2 * k_goals)%nat)) -> 1 <= v <= 5) ->
  controls_goals RNG uniform k_goals (S fuel) g =
    Some (rows2 (fst (uniform g 5 1 (2 * k_goals)%nat)), snd (uniform g 5 1 (2 * k_goals)%nat)).
Proof.
  intros Hd. cbn [controls_goals].
  destruct (uniform g 5 1 (2 * k_goals)%nat) as [draws g1]. cbn [fst snd] in *.
  replace (forallb _ (rows2 draws)) with true; [reflexivity|].
  symmetry. apply forallb_forall. intros [a b] Hin.
  destruct (rows2_in (length draws) draws a b (le_n _) Hin) as [Ha Hb].
  unfold Rltb. destruct (Rlt_dec (norm2 (a, b)) 10) as [|Hn]; [reflexivity|].
  exfalso. apply Hn. apply norm2_lt_10; auto.
Qed.

(** [Controls(k_goals, seed)]: when the first [(k, 2)] batch of
    [uniform(low=5, high=1)] lies in [[1, 5]] (numpy draws it from
    [(1, 5]]), every row has norm at most [5 sqrt 2 < 10], so the
    constructor accepts that first batch: [k] is [k_goals], [index] is 0,
    the goals are the [k_goals] rows of the batch, and [true_goal] is its
    first row. *)
Theorem controls_init_first_batch (RNG : Type) (uniform : RNG -> R -> R -> nat -> list R * RNG)
    (k_goals fuel : nat) (g : RNG) :
  (forall v, In v (fst (uniform g 5 1 (2 * k_goals)%nat)) -> 1 <= v <= 5) ->
  length (fst (uniform g 5 1 (2 * k_goals)%nat)) = (2 * k_goals)%nat ->
  (0 < fuel)%nat -> (0 < k_goals)%nat ->
  exists c,
    controls_init RNG uniform k_goals fuel g = Some (c, snd (uniform g 5 1 (2 * k_goals)%nat)) /\
    k c = Z.of_nat k_goals /\
    get_goal_index c = 0%Z /\
    goals c = GoalRows (rows2 (fst (uniform g 5 1 (2 * k_goals)%nat))) /\
    length (rows2 (fst (uniform g 5 1 (2 * k_goals)%nat))) = k_goals /\
    true_goal c = Ok (GoalRow (nth 0 (fst (uniform g 5 1 (2 * k_goals)%nat)) 0,
                               nth 1 (fst (uniform g 5 1 (2 * k_goals)%nat)) 0)).
Proof.
  intros Hd Hlen Hf Hk.
  destruct fuel as [|fuel]; [lia|].
  unfold controls_init. rewrite (controls_goals_accepts_first RNG uniform k_goals fuel g Hd).
  eexists. split; [reflexivity|].
  split; [reflexivity|]. split; [reflexivity|]. split; [reflexivity|].
  split; [exact (rows2_length k_goals _ Hlen)|].
  unfold true_goal. cbn [goals index].
  destruct (fst (uniform g 5 1 (2 * k_goals)%nat)) as [|a [|b rest]]; simpl in Hlen; try lia.
  reflexivity.
Qed.

Lemma controls_init_first_batch_witness :
  (forall v, In v (fst (stand_in_uniform 0%nat 5 1 (2 * 1)%nat)) -> 1 <= v <= 5) /\
  length (fst (stand_in_uniform 0%nat 5 1 (2 * 1)%nat)) = (2 * 1)%nat /\
  (0 < 1)%nat /\ (0 < 1)%nat /\
  exists c,
    controls_init nat stand_in_uniform 1%nat 1%nat 0%nat = Some (c, snd (stand_in_uniform 0%nat 5 1 (2 * 1)%nat)) /\
    k c = Z.of_nat 1 /\
    get_goal_index c = 0%Z /\
    goals c = GoalRows (rows2 (fst (stand_in_uniform 0%nat 5 1 (2 * 1)%nat))) /\
    length (rows2 (fst (stand_in_uniform 0%nat 5 1 (2 * 1)%nat))) = 1%nat /\
    true_goal c = Ok (GoalRow (nth 0 (fst (stand_in_uniform 0%nat 5 1 (2 * 1)%nat)) 0,
                               nth 1 (fst (stand_in_uniform 0%nat 5 1 (2 * 1)%nat)) 0)).
Proof.
  assert (Hd : forall v, In v (fst (stand_in_uniform 0%nat 5 1 (2 * 1)%nat)) -> 1 <= v <= 5).
  { cbn. intros v [<-|[<-|[]]]; lra. }
  assert (Hl : length (fst (stand_in_uniform 0%nat 5 1 (2 * 1)%nat)) = (2 * 1)%nat) by reflexivity.
  split; [exact Hd|]. split; [exact Hl|]. split; [lia|]. split; [lia|].
  apply (controls_init_first_batch nat stand_in_uniform 1%nat 1%nat 0%nat Hd Hl); lia.
Defined.

(** [get_true_goal()] after [PointMassEnv.reset_model()]: the reset
    stores the flat 2-vector goal [(x, y)] through [sample_goal(goals)] and
    keeps the task index, so [self.goals[self.index]] indexes that vector.
    It never returns a goal row: it yields the coordinate [x] when the index
    was 0 (its initial value) or -2, [y] when it was 1 or -1, and raises
    [IndexError] for any other index. *)
Theorem get_true_goal_on_reset_goal (Sim : Type) (qpos2 : Sim -> R * R)
    (set_state : Sim -> list R -> list R -> Sim) (RNG : Type)
    (uniform : RNG -> R -> R -> nat -> list R * RNG) (init_qpos init_qvel : list R)
    (fix_goal : bool) (env : PMEnv Sim) (gnp gglob : RNG) :
  let gd := fst (uniform gglob (- (3 / 10)) (3 / 10) 2%nat) in
  let g := if fix_goal then (0, 0) else (nth 0 gd 0, nth 1 gd 0) in
  let env' := fst (fst (fst (pm_reset_model Sim qpos2 set_state RNG uniform init_qpos init_qvel
                                fix_goal env gnp gglob))) in
  let i := index (pm_controls Sim env) in
  (forall p, get_true_goal (pm_controls Sim env') <> Ok (GoalRow p)) /\
  ((i = 0 \/ i = -2)%Z -> get_true_goal (pm_controls Sim env') = Ok (GoalScalar (fst g))) /\
  ((i = 1 \/ i = -1)%Z -> get_true_goal (pm_controls Sim env') = Ok (GoalScalar (snd g))) /\
  ((i < -2 \/ 2 <= i)%Z -> get_true_goal (pm_controls Sim env') = Raise IndexError).
Proof.
  cbv zeta. unfold pm_reset_model.
  destruct (uniform gnp (- (1 / 10)) (1 / 10) (length init_qpos)) as [dq gnp1].
  destruct (uniform gglob (- (3 / 10)) (3 / 10) 2%nat) as [gd gglob1].
  cbn [fst snd].
  set (g := if fix_goal then (0, 0) else (nth 0 gd 0, nth 1 gd 0)).
  destruct (set_last2 (map2 Rplus dq init_qpos) g);
    [destruct (uniform gnp1 (- (5 / 1000)) (5 / 1000) (length init_qvel))|];
    cbn [fst snd pm_controls];
    clearbody g; destruct g as [x y];
    unfold get_true_goal, true_goal, sample_goal_with; cbn [goals index fst snd];
    (split; [|split; [|split]]).
  all: try (intros p; destruct (py_index [x; y] (index (pm_controls Sim env))); discriminate).
  all: try (intros [-> | ->]; reflexivity).
  all: intros H; rewrite py_index_out_of_range; [reflexivity|]; simpl; lia.
Qed.

(** Witness for [get_true_goal_on_reset_goal]: a reset of the stand-in
    point mass from a freshly built [Controls] (index 0). *)
Lemma get_true_goal_on_reset_goal_witness :
  index (pm_controls (R * R) (pm_env_at (0, 0))) = 0%Z /\
  get_true_goal (pm_controls (R * R)
    (fst (fst (fst (pm_reset_model (R * R) point_qpos2 point_set_state nat stand_in_uniform
                      [0; 0; 0; 0] [0; 0; 0; 0] false (pm_env_at (0, 0)) 0%nat 0%nat)))))
  = Ok (GoalScalar (nth 0 (fst (stand_in_uniform 0 (- (3 / 10)) (3 / 10) 2)) 0)).
Proof.
  split; [reflexivity|].
  exact (proj1 (proj2 (get_true_goal_on_reset_goal (R * R) point_qpos2 point_set_state nat
                         stand_in_uniform [0; 0; 0; 0] [0; 0; 0; 0] false (pm_env_at (0, 0))
                         0%nat 0%nat)) (or_introl eq_refl)).
Defined.

(** [sample_task] followed by [get_true_goal] on controls holding [k] goal
    rows.  With no index, a [randint] draw in [[0, k)] selects that row.
    An index in [[0, k)] selects row [i]; one in [[-k, 0)] passes the
    assertion and selects row [k + i]; one at least [k] fails the assertion
    but stays stored, so [get_true_goal] then raises [IndexError]; one below
    [-k] passes the assertion and [get_true_goal] raises [IndexError]. *)
Theorem sample_task_then_true_goal (c : Controls) (rows : list (R * R)) (i draw : Z) :
  goals c = GoalRows rows ->
  k c = Z.of_nat (length rows) ->
  ((0 <= draw < k c)%Z ->
     exists row, nth_error rows (Z.to_nat draw) = Some row /\
       snd (sample_task c None draw) = Ok draw /\
       get_true_goal (fst (sample_task c None draw)) = Ok (GoalRow row)) /\
  ((0 <= i < k c)%Z ->
     exists row, nth_error rows (Z.to_nat i) = Some row /\
       snd (sample_task c (Some i) draw) = Ok i /\
       get_true_goal (fst (sample_task c (Some i) draw)) = Ok (GoalRow row)) /\
  ((- k c <= i < 0)%Z ->
     exists row, nth_error rows (Z.to_nat (k c + i)) = Some row /\
       snd (sample_task c (Some i) draw) = Ok i /\
       get_true_goal (fst (sample_task c (Some i) draw)) = Ok (GoalRow row)) /\
  ((k c <= i)%Z ->
     snd (sample_task c (Some i) draw) = Raise AssertionError /\
     get_true_goal (fst (sample_task c (Some i) draw)) = Raise IndexError) /\
  ((i < - k c)%Z ->
     snd (sample_task c (Some i) draw) = Ok i /\
     get_true_goal (fst (sample_task c (Some i) draw)) = Raise IndexError).
Proof.
  intros Hg Hk.
  unfold get_true_goal, true_goal, sample_task.
  split; [|split; [|split; [|split]]].
  - intros Hd. cbn [fst snd goals index]. rewrite Hg.
    destruct (py_index_in_range rows draw) as (row & Hn & Hp); [lia|].
    exists row. rewrite Hp. auto.
  - intros Hi. rewrite (proj2 (Z.ltb_lt i (k c))) by lia. cbn [fst snd goals index]. rewrite Hg.
    destruct (py_index_in_range rows i) as (row & Hn & Hp); [lia|].
    exists row. rewrite Hp. auto.
  - intros Hi. rewrite (proj2 (Z.ltb_lt i (k c))) by lia. cbn [fst snd goals index]. rewrite Hg.
    rewrite (py_index_negative rows i) by lia.
    destruct (py_index_in_range rows (Z.of_nat (length rows) + i)) as (row & Hn & Hp); [lia|].
    exists row. rewrite Hp. rewrite <- Hk in Hn. auto.
  - intros Hi. rewrite (proj2 (Z.ltb_ge i (k c))) by lia. cbn [fst snd goals index]. rewrite Hg.
    rewrite py_index_out_of_range by lia. auto.
  - intros Hi. rewrite (proj2 (Z.ltb_lt i (k c))) by lia. cbn [fst snd goals index]. rewrite Hg.
    rewrite py_index_out_of_range by lia. auto.
Qed.

Lemma sample_task_then_true_goal_witness :
  goals (mkControls 1 0 (GoalRows [(2, 3)])) = GoalRows [(2, 3)] /\
  k (mkControls 1 0 (GoalRows [(2, 3)])) = Z.of_nat (length [(2, 3)]) /\
  ((0 <= 0 < 1)%Z ->
     exists row, nth_error [(2, 3)] (Z.to_nat 0) = Some row /\
       snd (sample_task (mkControls 1 0 (GoalRows [(2, 3)])) None 0%Z) = Ok 0%Z /\
       get_true_goal (fst (sample_task (mkControls 1 0 (GoalRows [(2, 3)])) None 0%Z)) = Ok (GoalRow row)) /\
  ((0 <= 1 < 1)%Z ->
     exists row, nth_error [(2, 3)] (Z.to_nat 1) = Some row /\
       snd (sample_task (mkControls 1 0 (GoalRows [(2, 3)])) (Some 1%Z) 0%Z) = Ok 1%Z /\
       get_true_goal (fst (sample_task (mkControls 1 0 (GoalRows [(2, 3)])) (Some 1%Z) 0%Z)) = Ok (GoalRow row)) /\
  ((- 1 <= 1 < 0)%Z ->
     exists row, nth_error [(2, 3)] (Z.to_nat (1 + 1)) = Some row /\
       snd (sample_task (mkControls 1 0 (GoalRows [(2, 3)])) (Some 1%Z) 0%Z) = Ok 1%Z /\
       get_true_goal (fst (sample_task (mkControls 1 0 (GoalRows [(2, 3)])) (Some 1%Z) 0%Z)) = Ok (GoalRow row)) /\
  ((1 <= 1)%Z ->
     snd (sample_task (mkControls 1 0 (GoalRows [(2, 3)])) (Some 1%Z) 0%Z) = Raise AssertionError /\
     get_true_goal (fst (sample_task (mkControls 1 0 (GoalRows [(2, 3)])) (Some 1%Z) 0%Z)) = Raise IndexError) /\
  ((1 < - 1)%Z ->
     snd (sample_task (mkControls 1 0 (GoalRows [(2, 3)])) (Some 1%Z) 0%Z) = Ok 1%Z /\
     get_true_goal (fst (sample_task (mkControls 1 0 (GoalRows [(2, 3)])) (Some 1%Z) 0%Z)) = Raise IndexError).
Proof.
  split; [reflexivity|]. split; [reflexivity|].
  exact (sample_task_then_true_goal (mkControls 1 0 (GoalRows [(2, 3)])) [(2, 3)] 1%Z 0%Z
           eq_refl eq_refl).
Defined.

(* ------------------------------------------------------------------ *)
(** ** Further properties: [PointMassEnv.reset_model] *)

Lemma map2_length {A B C : Type} (f : A -> B -> C) (l1 : list A) (l2 : list B) :
  length (map2 f l1 l2) = Nat.min (length l1) (length l2).
Proof. unfold map2. rewrite length_map. apply length_combine. Qed.

Lemma set_last2_ok (v : list R) (g : R * R) :
  (2 <= length v)%nat ->
  exists v', set_last2 v g = Some v' /\ length v' = length v /\
    firstn (length v - 2) v' = firstn (length v - 2) v /\
    skipn (length v - 2) v' = [fst g; snd g].
Proof.
  intros H. unfold set_last2. rewrite (proj2 (Nat.leb_le 2 (length v)) H).
  eexists. split; [reflexivity|].
  assert (Hf : length (firstn (length v - 2) v) = (length v - 2)%nat)
    by (rewrite length_firstn; lia).
  split; [rewrite length_app, Hf; simpl; lia|].
  split.
  - rewrite firstn_app, Hf, Nat.sub_diag. simpl. rewrite app_nil_r, firstn_firstn.
    f_equal. lia.
  - rewrite skipn_app, Hf, Nat.sub_diag. simpl. rewrite skipn_all2 by lia. reflexivity.
Qed.

Lemma zero_last2_spec (v : list R) :
  length (zero_last2 v) = length v /\
  firstn (length v - 2) (zero_last2 v) = firstn (length v - 2) v /\
  skipn (length v - 2) (zero_last2 v) = repeat 0 (Nat.min 2 (length v)).
Proof.
  unfold zero_last2.
  assert (Hf : length (firstn (length v - 2) v) = (length v - 2)%nat)
    by (rewrite length_firstn; lia).
  split; [rewrite length_app, Hf, repeat_length; lia|].
  split.
  - rewrite firstn_app, Hf, Nat.sub_diag. simpl. rewrite app_nil_r, firstn_firstn.
    f_equal. lia.
  - replace (Nat.min 2 (length v)) with (length v - (length v - 2))%nat by lia.
    rewrite skipn_app, Hf, Nat.sub_diag. simpl. rewrite skipn_all2 by lia. reflexivity.
Qed.

(** [PointMassEnv.reset_model] on a model with at least two position
    coordinates.  It returns normally; the controls' goals become the
    2-vector goal [g] (the global [uniform(-0.3, 0.3, 2)] draw, or [(0, 0)]
    with [fix_goal], the global draw being consumed either way) while [k]
    and the task index are kept; the state handed to [set_state] has [g] in
    its last two position entries, [init_qpos] plus the [np_random] noise
    elsewhere, and zero in its last two velocity entries; the observation
    is read from that state. *)
Theorem pm_reset_model_installs_goal (Sim : Type) (qpos2 : Sim -> R * R)
    (set_state : Sim -> list R -> list R -> Sim) (RNG : Type)
    (uniform : RNG -> R -> R -> nat -> list R * RNG) (init_qpos init_qvel : list R)
    (fix_goal : bool) (env : PMEnv Sim) (gnp gglob : RNG) :
  (2 <= length init_qpos)%nat ->
  length (fst (uniform gnp (- (1 / 10)) (1 / 10) (length init_qpos))) = length init_qpos ->
  let gd := fst (uniform gglob (- (3 / 10)) (3 / 10) 2%nat) in
  let g := if fix_goal then (0, 0) else (nth 0 gd 0, nth 1 gd 0) in
  let nq := length init_qpos in
  exists env' ob gnp' qpos qvel,
    pm_reset_model Sim qpos2 set_state RNG uniform init_qpos init_qvel fix_goal env gnp gglob
      = (env', Some ob, gnp', snd (uniform gglob (- (3 / 10)) (3 / 10) 2%nat)) /\
    goals (pm_controls Sim env') = GoalVec g /\
    k (pm_controls Sim env') = k (pm_controls Sim env) /\
    index (pm_controls Sim env') = index (pm_controls Sim env) /\
    pm_sim Sim env' = set_state (pm_sim Sim env) qpos qvel /\
    length qpos = nq /\
    skipn (nq - 2) qpos = [fst g; snd g] /\
    firstn (nq - 2) qpos =
      firstn (nq - 2) (map2 Rplus (fst (uniform gnp (- (1 / 10)) (1 / 10) nq)) init_qpos) /\
    skipn (length qvel - 2) qvel = repeat 0 (Nat.min 2 (length qvel)) /\
    ob = qpos2 (pm_sim Sim env').
Proof.
  intros Hnq Hdq. cbv zeta.
  unfold pm_reset_model.
  destruct (uniform gnp (- (1 / 10)) (1 / 10) (length init_qpos)) as [dq gnp1] eqn:Eq.
  destruct (uniform gglob (- (3 / 10)) (3 / 10) 2%nat) as [gd' gglob1] eqn:Eg.
  cbn [fst snd] in *.
  set (g := if fix_goal then (0, 0) else (nth 0 gd' 0, nth 1 gd' 0)).
  set (nq := length init_qpos) in *.
  assert (Hlq : length (map2 Rplus dq init_qpos) = nq)
    by (rewrite map2_length, Hdq; apply Nat.min_id).
  destruct (set_last2_ok (map2 Rplus dq init_qpos) g) as (qpos & Hs & Hl & Hfirst & Hlast);
    [lia|].
  rewrite Hs.
  destruct (uniform gnp1 (- (5 / 1000)) (5 / 1000) (length init_qvel)) as [dv gnp2].
  destruct (zero_last2_spec (map2 Rplus init_qvel dv)) as (Hvl & _ & Hvlast).
  rewrite <- Hvl in Hvlast.
  exists (mkPMEnv Sim (sample_goal_with (pm_controls Sim env) (GoalVec g)) (pm_discrete Sim env)
            (pm_frame_skip Sim env)
            (set_state (pm_sim Sim env) qpos (zero_last2 (map2 Rplus init_qvel dv)))).
  eexists _, _, qpos, (zero_last2 (map2 Rplus init_qvel dv)).
  split; [reflexivity|].
  split; [reflexivity|]. split; [reflexivity|]. split; [reflexivity|].
  split; [reflexivity|].
  rewrite Hlq in Hl, Hfirst, Hlast.
  split; [exact Hl|]. split; [exact Hlast|]. split; [exact Hfirst|].
  split; [exact Hvlast|reflexivity].
Qed.

(* ------------------------------------------------------------------ *)
(** ** Further properties: [Peg2DEnv._get_obs], [step] and [reset_model] *)

Lemma firstn_slot_out (q : list Float) : firstn 3 (slot_out q) = firstn 3 q.
Proof. destruct q as [|a [|b [|c q]]]; reflexivity. Qed.

Lemma slot_out_restore (q : list Float) : firstn 3 (slot_out q) ++ skipn 3 q = q.
Proof. rewrite firstn_slot_out. apply firstn_skipn. Qed.

Lemma peg_get_obs_full_spec (Sim Img : Type) (sim_qpos sim_qvel : Sim -> list Float)
    (set_state : Sim -> list Float -> list Float -> Sim) (render : Sim -> Img)
    (obs_keys : list string) (goal_img : Img) (s : Sim) :
  let q := sim_qpos s in
  let s1 := set_state s (slot_out q) (sim_qvel s) in
  peg_get_obs_full Sim Img sim_qpos sim_qvel set_state render obs_keys goal_img s =
  ((if key_in "x" obs_keys then [("x"%string, OArr (firstn 3 q))] else []) ++
   (if key_in "img" obs_keys then [("img"%string, OImg (render s1))] else []) ++
   (if key_in "goal" obs_keys then [("goal"%string, OArr (skipn 3 q))] else []) ++
   (if key_in "goal_img" obs_keys then [("goal_img"%string, OImg goal_img)] else []),
   if key_in "img" obs_keys then set_state s1 q (sim_qvel s1) else s).
Proof.
  cbv zeta. unfold peg_get_obs_full.
  destruct (key_in "x" obs_keys), (key_in "img" obs_keys), (key_in "goal" obs_keys),
    (key_in "goal_img" obs_keys);
    cbn [dict_set String.eqb app]; rewrite ?slot_out_restore; reflexivity.
Qed.

(** [Peg2DEnv._get_obs].  The entries appear in the order [x], [img],
    [goal], [goal_img], each only when its key is in [obs_keys].  [x] and
    [goal] are [qpos[:3]] and [qpos[3:]] of the state on entry, even when
    [img] is requested: the image is rendered from a state whose slot
    coordinates [qpos[3:]] are all set to 1, and the simulator is then set
    back to the original positions before [goal] is read.  Without [img]
    the simulator is left untouched. *)
Theorem peg_get_obs_restores_slot (Sim Img : Type) (sim_qpos sim_qvel : Sim -> list Float)
    (set_state : Sim -> list Float -> list Float -> Sim) (render : Sim -> Img)
    (obs_keys : list string) (goal_img : Img) (s : Sim) :
  let '(obs, s') := peg_get_obs_full Sim Img sim_qpos sim_qvel set_state render obs_keys goal_img s in
  map fst obs = filter (fun key => key_in key obs_keys) ["x"; "img"; "goal"; "goal_img"]%string /\
  (key_in "x" obs_keys = true -> dict_get obs "x" = Some (OArr (firstn 3 (sim_qpos s)))) /\
  (key_in "goal" obs_keys = true -> dict_get obs "goal" = Some (OArr (skipn 3 (sim_qpos s)))) /\
  (key_in "img" obs_keys = true ->
     let s1 := set_state s (slot_out (sim_qpos s)) (sim_qvel s) in
     dict_get obs "img" = Some (OImg (render s1)) /\
     skipn 3 (slot_out (sim_qpos s)) = repeat (Num 1) (length (skipn 3 (sim_qpos s))) /\
     s' = set_state s1 (sim_qpos s) (sim_qvel s1)) /\
  (key_in "img" obs_keys = false -> s' = s).
Proof.
  rewrite peg_get_obs_full_spec. cbv zeta.
  assert (Hrep : forall q : list Float,
            skipn 3 (slot_out q) = repeat (Num 1) (length (skipn 3 q))).
  { intros q. destruct q as [|a [|b [|c q]]]; try reflexivity.
    cbn. induction q as [|x q IH]; [reflexivity|]. cbn. f_equal. exact IH. }
  cbn [filter].
  destruct (key_in "x" obs_keys), (key_in "img" obs_keys), (key_in "goal" obs_keys),
    (key_in "goal_img" obs_keys);
    cbn [app map fst filter key_in existsb dict_get String.eqb];
    repeat split; intros; try discriminate; try reflexivity; apply Hrep.
Qed.

(** [Peg2DEnv.step] with the dictionary [_get_obs] builds: when [obs_keys]
    contains ['a'], the returned observation carries an ['a'] entry that
    [observation_space] (built in [__init__] from [x], [goal], [img] and
    [goal_img] only) never declares; otherwise its keys are exactly those
    of [observation_space]. *)
Theorem peg_step_obs_keys (Sim Img : Type) (sim_qpos sim_qvel : Sim -> list Float)
    (set_state : Sim -> list Float -> list Float -> Sim) (render : Sim -> Img)
    (pre : bool -> Sim -> Sim) (dosim : Sim -> list R -> nat -> Sim)
    (obs_keys : list string) (goal_img : Img) (env env' : PegEnv Sim) (a : PegAction)
    (ob : ObsDict Img) (r : R) (d : bool) (info : PegInfo) :
  peg_obs_has_a Sim env = key_in "a" obs_keys ->
  peg_step Sim (ObsDict Img) pre dosim
    (fun s => fst (peg_get_obs_full Sim Img sim_qpos sim_qvel set_state render obs_keys goal_img s))
    (obs_set_a_dict Img) env a = (env', Ok (ob, r, d, info)) ->
  (forall key, In key (map fst ob) <->
     In key (obs_space_keys obs_keys) \/ (key = "a"%string /\ key_in "a" obs_keys = true)) /\
  ~ In "a"%string (obs_space_keys obs_keys).
Proof.
  intros Ha Hstep. unfold peg_step in Hstep.
  destruct (peg_resolve_action Sim env a) as [act|e]; [|discriminate].
  destruct (counter_step _ _ _) as [rc done].
  injection Hstep as _ Hob _ _ _. subst ob.
  rewrite Ha, peg_get_obs_full_spec. cbv zeta. cbn [fst]. unfold obs_space_keys, obs_set_a_dict.
  destruct (key_in "x" obs_keys), (key_in "img" obs_keys), (key_in "goal" obs_keys),
    (key_in "goal_img" obs_keys), (key_in "a" obs_keys);
    simpl;
    (split; [intros key; split; intros H; intuition (subst; try discriminate; auto)
            |intros H; intuition discriminate]).
Qed.

Lemma peg_step_obs_keys_witness :
  let env := mkPegEnv MjState false [] false false true 0 10 0
               (mkMj [Num 0; Num 0; Num 0; Num 0] [Num 0; Num 0; Num 0; Num 0]) in
  let keys := ["x"; "goal"; "a"]%string in
  exists env' ob r d info,
    peg_obs_has_a MjState env = key_in "a" keys /\
    peg_step MjState (ObsDict (list Float)) mj_prelude mj_do_simulation
      (fun s => fst (peg_get_obs_full MjState (list Float) mj_qpos mj_qvel mj_set_state mj_render
                       keys [] s))
      (obs_set_a_dict (list Float)) env (PegVec [0]) = (env', Ok (ob, r, d, info)) /\
    (forall key, In key (map fst ob) <->
       In key (obs_space_keys keys) \/ (key = "a"%string /\ key_in "a" keys = true)) /\
    ~ In "a"%string (obs_space_keys keys).
Proof.
  cbv zeta.
  match goal with |- exists _ _ _ _ _, _ /\ ?lhs = _ /\ _ => remember lhs as st eqn:E end.
  destruct st as [env' [[[[ob r] d] info]|e]].
  - exists env', ob, r, d, info. split; [reflexivity|]. split; [reflexivity|].
    apply (peg_step_obs_keys MjState (list Float) mj_qpos mj_qvel mj_set_state mj_render
             mj_prelude mj_do_simulation ["x"; "goal"; "a"]%string []
             (mkPegEnv MjState false [] false false true 0 10 0
                (mkMj [Num 0; Num 0; Num 0; Num 0] [Num 0; Num 0; Num 0; Num 0]))
             env' (PegVec [0]) ob r d info eq_refl (eq_sym E)).
  - exfalso. unfold peg_step in E. cbn [peg_resolve_action peg_discrete] in E.
    destruct (counter_step _ _ _) in E. discriminate.
Defined.
(** [Peg2DEnv.reset_model(x, goal)] with both arguments given, on a
    simulator whose [set_state] and [qpos[:]] writes store the positions
    they are given.  It draws only [self.np_random.rand()], renders the goal
    image from [goal_pose goal r], resets the counter to 0, sets
    [self.goal = goal] and leaves the positions [x ++ [goal]], or
    [x ++ [1]] when [free] is set.  The observation's [x] is [x] and its
    [goal] is [[goal]], but [[1]] in the free configuration, even though
    [self.goal], the value the discrete actions carry, is [goal]. *)
Theorem peg_reset_model_given (Sim Img : Type) (sim_qpos sim_qvel : Sim -> list Float)
    (set_state : Sim -> list Float -> list Float -> Sim) (render : Sim -> Img) (RNG : Type)
    (uniform : RNG -> R -> R -> nat -> list R * RNG) (rand : RNG -> R * RNG)
    (write_qpos write_qvel : Sim -> list Float -> Sim)
    (Hset : forall s q v, sim_qpos (set_state s q v) = q)
    (Hwq : forall s q, sim_qpos (write_qpos s q) = q)
    (Hwv : forall s v, sim_qpos (write_qvel s v) = sim_qpos s)
    (obs_keys : list string) (goal_low goal_high : R) (env : PegEnv Sim)
    (x0 x1 x2 goal : R) (fuel : nat) (g : RNG) :
  let slot := if peg_free Sim env then 1 else goal in
  exists env' obs,
    peg_reset_model Sim Img sim_qpos sim_qvel set_state render RNG uniform rand write_qpos write_qvel
      obs_keys goal_low goal_high env (Some (x0, x1, x2)) (Some goal) fuel g
    = Some (env',
            render (set_state (peg_sim Sim env) (goal_pose goal (fst (rand g)))
                      (sim_qvel (peg_sim Sim env))),
            obs, snd (rand g)) /\
    reach_counts Sim env' = 0%nat /\
    peg_goal Sim env' = goal /\
    sim_qpos (peg_sim Sim env') = [Num x0; Num x1; Num x2; Num slot] /\
    (key_in "x" obs_keys = true -> dict_get obs "x" = Some (OArr [Num x0; Num x1; Num x2])) /\
    (key_in "goal" obs_keys = true -> dict_get obs "goal" = Some (OArr [Num slot])).
Proof.
  cbv zeta. unfold peg_reset_model.
  destruct (rand g) as [r g3]. cbn [fst snd].
  rewrite peg_get_obs_full_spec. cbv zeta. rewrite Hwv, Hwq.
  set (slot := if peg_free Sim env then 1 else goal).
  replace (map Num ([x0; x1; x2] ++ (if peg_free Sim env then [1] else [goal])))
    with [Num x0; Num x1; Num x2; Num slot] by (unfold slot; destruct (peg_free Sim env); reflexivity).
  eexists _, _. split; [reflexivity|].
  cbn [reach_counts peg_goal peg_sim]. split; [reflexivity|]. split; [reflexivity|].
  destruct (key_in "x" obs_keys), (key_in "img" obs_keys), (key_in "goal" obs_keys),
    (key_in "goal_img" obs_keys);
    simpl; rewrite ?Hset, ?Hwv, ?Hwq; repeat split; intros; try discriminate; reflexivity.
Qed.

Lemma peg_reset_model_given_witness :
  (forall s q v, mj_qpos (mj_set_state s q v) = q) /\
  (forall s q, mj_qpos (mj_write_qpos s q) = q) /\
  (forall s v, mj_qpos (mj_write_qvel s v) = mj_qpos s) /\
  let env := mkPegEnv MjState true (peg_a_dict 1 true) false true false 0 10 0
               (mkMj [Num 0; Num 0; Num 0; Num 0] [Num 0; Num 0; Num 0; Num 0]) in
  let slot := if peg_free MjState env then 1 else 1 / 100 in
  exists env' obs,
    peg_reset_model MjState (list Float) mj_qpos mj_qvel mj_set_state mj_render nat
      stand_in_uniform stand_in_rand mj_write_qpos mj_write_qvel
      ["x"; "goal"; "img"; "goal_img"]%string (- (2 / 100)) (2 / 100) env
      (Some (0, 0, 0)) (Some (1 / 100)) 5 0%nat
    = Some (env',
            mj_render (mj_set_state (peg_sim MjState env) (goal_pose (1 / 100) (fst (stand_in_rand 0%nat)))
                      (mj_qvel (peg_sim MjState env))),
            obs, snd (stand_in_rand 0%nat)) /\
    reach_counts MjState env' = 0%nat /\
    peg_goal MjState env' = 1 / 100 /\
    mj_qpos (peg_sim MjState env') = [Num 0; Num 0; Num 0; Num slot] /\
    (key_in "x" ["x"; "goal"; "img"; "goal_img"]%string = true ->
       dict_get obs "x" = Some (OArr [Num 0; Num 0; Num 0])) /\
    (key_in "goal" ["x"; "goal"; "img"; "goal_img"]%string = true ->
       dict_get obs "goal" = Some (OArr [Num slot])).
Proof.
  split; [reflexivity|]. split; [reflexivity|]. split; [reflexivity|].
  exact (peg_reset_model_given MjState (list Float) mj_qpos mj_qvel mj_set_state mj_render nat
           stand_in_uniform stand_in_rand mj_write_qpos mj_write_qvel
           (fun _ _ _ => eq_refl) (fun _ _ => eq_refl) (fun _ _ => eq_refl)
           ["x"; "goal"; "img"; "goal_img"]%string (- (2 / 100)) (2 / 100)
           (mkPegEnv MjState true (peg_a_dict 1 true) false true false 0 10 0
              (mkMj [Num 0; Num 0; Num 0; Num 0] [Num 0; Num 0; Num 0; Num 0]))
           0 0 0 (1 / 100) 5 0%nat).
Defined.

Lemma goal_pose_hypo (goal : R) :
  norm2 (3 / 100 + fst (- (5 / 1000), goal / 10), snd (- (5 / 1000), goal / 10)) / (4 / 100)
  = sqrt (1 / 1600 + (goal / 10) * (goal / 10)) / (4 / 100).
Proof.
  unfold norm2. cbn [fst snd]. f_equal. f_equal. lra.
Qed.

Lemma arccos_arg_in_range (goal : R) :
  -1 <= sqrt (1 / 1600 + (goal / 10) * (goal / 10)) / (4 / 100) <= 1 <->
  goal * goal <= 975 / 10000.
Proof.
  set (u := 1 / 1600 + (goal / 10) * (goal / 10)).
  assert (Hu : 0 <= u) by (unfold u; nra).
  assert (Hs := sqrt_pos u).
  replace (sqrt u / (4 / 100)) with (25 * sqrt u) by field.
  assert (Hsq := sqrt_sqrt u Hu).
  split.
  - intros [_ H].
    assert (H2 : u <= (4 / 100) * (4 / 100)) by nra.
    unfold u in H2. nra.
  - intros H. split; [lra|].
    assert (H1 : u <= (4 / 100) * (4 / 100)) by (unfold u; nra).
    assert (H3 : sqrt u <= 4 / 100).
    { rewrite <- (sqrt_square (4 / 100)) by lra. apply sqrt_le_1_alt. exact H1. }
    lra.
Qed.

(** [reset_model]'s goal-image pose is all NaN in its three joint angles
    ([np.arccos] of a value above 1) exactly when [goal^2 > 0.0975], i.e.
    [|goal| > 0.312...], whatever the [rand()] draw; [reset_model] itself
    still returns normally, only the goal image is rendered from NaN
    angles. *)
Theorem goal_pose_nan_iff (goal r : R) :
  goal_pose goal r = [NaN; NaN; NaN; Num 1] <-> 975 / 10000 < goal * goal.
Proof.
  unfold goal_pose. cbv zeta. rewrite goal_pose_hypo.
  pose proof (arccos_arg_in_range goal) as Hr.
  unfold np_arccos.
  destruct (Rle_dec (-1) (sqrt (1 / 1600 + goal / 10 * (goal / 10)) / (4 / 100))) as [H1|H1];
    [destruct (Rle_dec (sqrt (1 / 1600 + goal / 10 * (goal / 10)) / (4 / 100)) 1) as [H2|H2]|].
  - cbn [fmul fadd fsub]. split; [discriminate|].
    intros Hlt. assert (goal * goal <= 975 / 10000) by (apply Hr; auto). lra.
  - cbn [fmul fadd fsub]. split; [intros _|reflexivity].
    destruct (Rle_lt_dec (goal * goal) (975 / 10000)) as [Hle|Hlt]; [|exact Hlt].
    exfalso. apply H2. apply Hr. exact Hle.
  - cbn [fmul fadd fsub]. split; [intros _|reflexivity].
    destruct (Rle_lt_dec (goal * goal) (975 / 10000)) as [Hle|Hlt]; [|exact Hlt].
    exfalso. apply H1. apply Hr. exact Hle.
Qed.

Lemma sign_unit (x : R) : x <> 0 -> sign x = 1 \/ sign x = -1.
Proof.
  unfold sign. intros H.
  destruct (Rlt_dec 0 x); [left; reflexivity|].
  destruct (Rlt_dec x 0); [right; reflexivity|]. lra.
Qed.

Lemma cos_sign_mult (s c : R) : s = 1 \/ s = -1 -> cos (s * c) = cos c.
Proof.
  intros [-> | ->]; [now rewrite Rmult_1_l|].
  replace (-1 * c) with (- c) by ring. apply cos_neg.
Qed.

(** With [goal^2 <= 0.0975] and a [rand()] draw other than 0.5, the
    goal-image pose of [reset_model] is finite, its three joint angles sum
    to 0, and they solve the inverse kinematics of a two-link arm with
    links of length 0.02 for the point [(0.025, goal / 10)]:
    [0.02 (cos q0 + cos (q0 + q1)) = 0.025] and
    [0.02 (sin q0 + sin (q0 + q1)) = goal / 10]. *)
Theorem goal_pose_reaches_slot (goal r : R) :
  goal * goal <= 975 / 10000 -> r <> 1 / 2 ->
  exists q0 q1 q2,
    goal_pose goal r = [Num q0; Num q1; Num q2; Num 1] /\
    q0 + q1 + q2 = 0 /\
    2 / 100 * (cos q0 + cos (q0 + q1)) = 25 / 1000 /\
    2 / 100 * (sin q0 + sin (q0 + q1)) = goal / 10.
Proof.
  intros Hg Hr.
  unfold goal_pose. cbv zeta. rewrite goal_pose_hypo.
  pose proof (proj2 (arccos_arg_in_range goal) Hg) as [H1 H2].
  unfold np_arccos.
  destruct (Rle_dec (-1) _) as [_|C]; [|contradiction].
  destruct (Rle_dec _ 1) as [_|C]; [|contradiction].
  cbn [fmul fadd fsub fst snd].
  set (c := acos (sqrt (1 / 1600 + goal / 10 * (goal / 10)) / (4 / 100))).
  assert (Hc : cos c = sqrt (1 / 1600 + goal / 10 * (goal / 10)) / (4 / 100))
    by (apply cos_acos; auto).
  set (s := sign (r - 1 / 2)).
  assert (Hs : s = 1 \/ s = -1) by (apply sign_unit; lra).
  replace (goal / 10 / (3 / 100 + - (5 / 1000))) with (4 * goal) by field.
  set (a0 := atan (4 * goal)).
  set (T := sqrt (1 + (4 * goal)²)).
  assert (HT : 0 < T) by (apply sqrt_lt_R0; pose proof (Rle_0_sqr (4 * goal)); lra).
  assert (HTT : T * T = 1 + (4 * goal) * (4 * goal))
    by (unfold T; rewrite sqrt_sqrt; [unfold Rsqr; ring|pose proof (Rle_0_sqr (4 * goal)); lra]).
  assert (Hsu : sqrt (1 / 1600 + goal / 10 * (goal / 10)) = T / 40).
  { rewrite <- (sqrt_square (T / 40)) by lra. f_equal.
    replace (T / 40 * (T / 40)) with (T * T / 1600) by field. rewrite HTT. field. }
  rewrite Hsu in Hc.
  assert (Hca : cos a0 = 1 / T) by (unfold a0; rewrite cos_atan; reflexivity).
  assert (Hsa : sin a0 = 4 * goal / T) by (unfold a0; rewrite sin_atan; reflexivity).
  eexists _, _, _. split; [reflexivity|].
  split; [ring|].
  replace (a0 + s * c + -2 * (s * c)) with (a0 - s * c) by ring.
  rewrite cos_plus, cos_minus, sin_plus, sin_minus.
  assert (Hcs : cos (s * c) = cos c) by (apply cos_sign_mult; exact Hs).
  rewrite Hcs, Hca, Hsa, Hc.
  split; field; lra.
Qed.

Lemma goal_pose_reaches_slot_witness :
  0 * 0 <= 975 / 10000 /\ 0 <> 1 / 2 /\
  exists q0 q1 q2,
    goal_pose 0 0 = [Num q0; Num q1; Num q2; Num 1] /\
    q0 + q1 + q2 = 0 /\
    2 / 100 * (cos q0 + cos (q0 + q1)) = 25 / 1000 /\
    2 / 100 * (sin q0 + sin (q0 + q1)) = 0 / 10.
Proof.
  assert (Hg : 0 * 0 <= 975 / 10000) by lra.
  assert (Hr : (0 : R) <> 1 / 2) by lra.
  split; [exact Hg|]. split; [exact Hr|].
  exact (goal_pose_reaches_slot 0 0 Hg Hr).
Defined.

(** One [Peg2DEnv.step] that returns, from any counter value: [done] is
    [True] exactly when [done_on_goal] is set, this step's reward is 0 and
    the counter was already positive (the previous step also had reward 0
    with no [done] in between); such a step leaves the counter at 0.  A
    step that is not done leaves [reach_counts + 1] after a zero reward
    when the counter was positive, 1 after a zero reward from 0, and 0
    after any other reward. *)
Theorem peg_step_done_iff (Sim Obs : Type) (pre : bool -> Sim -> Sim)
    (dosim : Sim -> list R -> nat -> Sim) (obs : Sim -> Obs) (seta : Obs -> list R -> Obs)
    (env env' : PegEnv Sim) (a : PegAction) (ob : Obs) (r : R) (d : bool) (info : PegInfo) :
  peg_step Sim Obs pre dosim obs seta env a = (env', Ok (ob, r, d, info)) ->
  (d = true <-> peg_done_on_goal Sim env = true /\ r = 0 /\ (1 <= reach_counts Sim env)%nat) /\
  (d = true -> reach_counts Sim env' = 0%nat) /\
  (d = false -> reach_counts Sim env' = (if Reqb r 0 then S (reach_counts Sim env) else 0%nat)).
Proof.
  intros Hs.
  destruct (peg_step_counter Sim Obs pre dosim obs seta env env' a ob r d info Hs) as [Hc _].
  unfold counter_step, done_check, reach_update in Hc.
  destruct (Reqb r 0) eqn:Er.
  - apply Reqb_true_iff in Er. subst r.
    destruct (reach_counts Sim env) as [|n]; cbn [Nat.eqb negb] in Hc.
    + destruct (peg_done_on_goal Sim env); cbn in Hc; injection Hc as Hrc Hd; subst d.
      all: split; [split; [discriminate|intros (_ & _ & H); lia]|].
      all: split; [discriminate|intros _; exact Hrc].
    + replace (S n + 1)%nat with (S (S n)) in Hc by lia.
      destruct (peg_done_on_goal Sim env); cbn in Hc; injection Hc as Hrc Hd; subst d.
      * split; [split; [intros _; repeat split; lia|reflexivity]|].
        split; [intros _; exact Hrc|discriminate].
      * split; [split; [discriminate|intros (H & _); discriminate]|].
        split; [discriminate|intros _; exact Hrc].
  - assert (Hr : r <> 0) by (intros ->; rewrite Reqb_refl in Er; discriminate).
    assert (Hrc : (reach_counts Sim env', d) = (0%nat, false)).
    { rewrite Hc. destruct (reach_counts Sim env) as [|n]; cbn [Nat.eqb negb];
        destruct (peg_done_on_goal Sim env); reflexivity. }
    injection Hrc as Hrc Hd. subst d.
    split; [split; [discriminate|intros (_ & H & _); contradiction]|].
    split; [discriminate|intros _; exact Hrc].
Qed.

(** Witness for [peg_step_done_iff]: with [done_on_goal] set and a counter
    at 1, a zero action raises [done]. *)
Lemma peg_step_done_iff_witness :
  let env := mkPegEnv unit false [] true false false 0 10 1 tt in
  exists env' ob r d info,
    run_peg_step env (PegVec [0]) = (env', Ok (ob, r, d, info)) /\
    ((d = true <-> peg_done_on_goal unit env = true /\ r = 0 /\ (1 <= reach_counts unit env)%nat) /\
     (d = true -> reach_counts unit env' = 0%nat) /\
     (d = false -> reach_counts unit env' = (if Reqb r 0 then S (reach_counts unit env) else 0%nat))).
Proof.
  cbv zeta.
  match goal with |- exists _ _ _ _ _, ?lhs = _ /\ _ => remember lhs as st eqn:E end.
  destruct st as [env' [[[[ob r] d] info]|e]].
  - exists env', ob, r, d, info. split; [reflexivity|].
    exact (peg_step_done_iff unit unit unit_prelude unit_do_simulation unit_get_obs unit_obs_set_a
             (mkPegEnv unit false [] true false false 0 10 1 tt) env' (PegVec [0]) ob r d info
             (eq_sym E)).
  - exfalso. unfold run_peg_step, peg_step in E. cbn [peg_resolve_action peg_discrete] in E.
    destruct (counter_step _ _ _) in E. discriminate.
Defined.

(** Witness for [pm_reset_model_installs_goal]: a point-mass reset with four
    position entries and the global draws at [0.15]. *)
Lemma pm_reset_model_installs_goal_witness :
  (2 <= length [0; 0; 0; 0])%nat /\
  exists env' ob gnp' qpos,
    pm_reset_model (R * R) point_qpos2 point_set_state nat stand_in_uniform
      [0; 0; 0; 0] [0; 0; 0; 0] false (pm_env_at (0, 0)) 0%nat 0%nat
      = (env', Some ob, gnp', 1%nat) /\
    goals (pm_controls (R * R) env') =
      GoalVec (nth 0 (fst (stand_in_uniform 0 (- (3 / 10)) (3 / 10) 2)) 0,
               nth 1 (fst (stand_in_uniform 0 (- (3 / 10)) (3 / 10) 2)) 0) /\
    skipn 2 qpos = [nth 0 (fst (stand_in_uniform 0 (- (3 / 10)) (3 / 10) 2)) 0;
                    nth 1 (fst (stand_in_uniform 0 (- (3 / 10)) (3 / 10) 2)) 0] /\
    ob = point_qpos2 (pm_sim (R * R) env').
Proof.
  split; [simpl; lia|].
  destruct (pm_reset_model_installs_goal (R * R) point_qpos2 point_set_state nat stand_in_uniform
              [0; 0; 0; 0] [0; 0; 0; 0] false (pm_env_at (0, 0)) 0%nat 0%nat)
    as (env' & ob & gnp' & qpos & qvel & H1 & H2 & _ & _ & _ & _ & H7 & _ & _ & H10);
    [simpl; lia|reflexivity|].
  exists env', ob, gnp', qpos.
  split; [exact H1|]. split; [exact H2|]. split; [exact H7|exact H10].
Defined.

Lemma get_goal_good (RNG : Type) (uniform : RNG -> R -> R -> nat -> list R * RNG)
    (lo hi : R) (fuel : nat) : forall (g g' : RNG) (goal : R),
  get_goal RNG uniform lo hi fuel g = Some (goal, g') -> good_goal goal = true.
Proof.
  induction fuel as [|fuel IH]; intros g g' goal; cbn [get_goal]; [discriminate|].
  destruct (goal_batch RNG uniform lo hi g) as [goals g1].
  destruct (find good_goal goals) as [c|] eqn:F.
  - intros H. injection H as <- <-. apply find_some in F. apply F.
  - apply IH.
Qed.

Lemma get_state_good (RNG : Type) (uniform : RNG -> R -> R -> nat -> list R * RNG)
    (fuel : nat) : forall (g g' : RNG) (st : R * R * R),
  get_state RNG uniform fuel g = Some (st, g') -> good_state st = true.
Proof.
  induction fuel as [|fuel IH]; intros g g' st; cbn [get_state]; [discriminate|].
  destruct (state_batch RNG uniform g) as [states g1].
  destruct (find good_state states) as [c|] eqn:F.
  - intros H. injection H as <- <-. apply find_some in F. apply F.
  - apply IH.
Qed.

Lemma goal_pose_finite (goal r : R) :
  goal * goal <= 975 / 10000 ->
  exists q0 q1 q2, goal_pose goal r = [Num q0; Num q1; Num q2; Num 1].
Proof.
  intros Hg. apply arccos_arg_in_range in Hg as [H1 H2].
  unfold goal_pose. cbv zeta. rewrite goal_pose_hypo. unfold np_arccos.
  destruct (Rle_dec (-1) (sqrt (1 / 1600 + goal / 10 * (goal / 10)) / (4 / 100)));
    [|contradiction].
  destruct (Rle_dec (sqrt (1 / 1600 + goal / 10 * (goal / 10)) / (4 / 100)) 1);
    [|contradiction].
  cbn [fmul fadd fsub]. eexists _, _, _. reflexivity.
Qed.

(** [Peg2DEnv.reset_model()] with neither argument: whenever it returns,
    it has drawn the state with [_get_state] and then the goal with
    [_get_goal] from the generator that follows, and then one [rand()].
    The goal passes [good_goal], so [goal^2 <= 0.0975] and the pose the goal
    image is rendered from has no NaN entry.  [self.goal] is the drawn goal,
    the first joint of the state is in [(-pi/2, pi/2)], and the counter
    is 0. *)
Theorem peg_reset_model_sampled (Sim Img : Type) (sim_qpos sim_qvel : Sim -> list Float)
    (set_state : Sim -> list Float -> list Float -> Sim) (render : Sim -> Img) (RNG : Type)
    (uniform : RNG -> R -> R -> nat -> list R * RNG) (rand : RNG -> R * RNG)
    (write_qpos write_qvel : Sim -> list Float -> Sim) (obs_keys : list string)
    (goal_low goal_high : R) (env : PegEnv Sim) (fuel : nat) (g : RNG)
    (env' : PegEnv Sim) (img : Img) (obs : ObsDict Img) (g' : RNG) :
  peg_reset_model Sim Img sim_qpos sim_qvel set_state render RNG uniform rand write_qpos
    write_qvel obs_keys goal_low goal_high env None None fuel g = Some (env', img, obs, g') ->
  exists x g1 goal g2 q0 q1 q2,
    get_state RNG uniform fuel g = Some (x, g1) /\
    get_goal RNG uniform goal_low goal_high fuel g1 = Some (goal, g2) /\
    g' = snd (rand g2) /\
    goal_pose goal (fst (rand g2)) = [Num q0; Num q1; Num q2; Num 1] /\
    img = render (set_state (peg_sim Sim env) [Num q0; Num q1; Num q2; Num 1]
                    (sim_qvel (peg_sim Sim env))) /\
    peg_goal Sim env' = goal /\
    - (26 / 100) < goal < 26 / 100 /\
    - (PI / 2) < fst (fst x) < PI / 2 /\
    reach_counts Sim env' = 0%nat.
Proof.
  unfold peg_reset_model.
  destruct (get_state RNG uniform fuel g) as [[x g1]|] eqn:Es; [|discriminate].
  destruct (get_goal RNG uniform goal_low goal_high fuel g1) as [[goal g2]|] eqn:Eg;
    [|discriminate].
  destruct (rand g2) as [r g3] eqn:Er.
  pose proof (good_goal_bounds goal (get_goal_good RNG uniform _ _ _ _ _ _ Eg)) as Hb.
  pose proof (good_state_bounds x (get_state_good RNG uniform _ _ _ _ Es)) as Hx.
  destruct (goal_pose_finite goal r) as (q0 & q1 & q2 & Hq); [destruct Hb; nra|].
  destruct x as [[x0 x1] x2].
  match goal with
  | |- (let '(_, _) := peg_get_obs_full ?a ?b ?c ?d ?e ?f ?k ?gi ?s in _) = _ -> _ =>
      destruct (peg_get_obs_full a b c d e f k gi s) as [obs0 s4]
  end.
  intros H. injection H as <- <- <- <-.
  exists (x0, x1, x2), g1, goal, g2, q0, q1, q2.
  rewrite Er. cbn [fst snd peg_goal reach_counts] in *. rewrite <- Hq.
  destruct Hb, Hx. repeat split; try reflexivity; assumption.
Qed.

(** Witness for [peg_reset_model_sampled]: a reset of the stand-in
    simulator where both samplers run on the stand-in generator. *)
Lemma peg_reset_model_sampled_witness :
  let env := mkPegEnv MjState true (peg_a_dict 1 true) false false false 0 10 3
               (mkMj [Num 0; Num 0; Num 0; Num 0] [Num 0; Num 0; Num 0; Num 0]) in
  exists env' img obs g',
    peg_reset_model MjState (list Float) mj_qpos mj_qvel mj_set_state mj_render nat
      stand_in_uniform stand_in_rand mj_write_qpos mj_write_qvel ["x"; "goal"]%string
      (- (2 / 100)) (2 / 100) env None None 5 0%nat = Some (env', img, obs, g') /\
    exists x g1 goal g2 q0 q1 q2,
      get_state nat stand_in_uniform 5 0%nat = Some (x, g1) /\
      get_goal nat stand_in_uniform (- (2 / 100)) (2 / 100) 5 g1 = Some (goal, g2) /\
      g' = snd (stand_in_rand g2) /\
      goal_pose goal (fst (stand_in_rand g2)) = [Num q0; Num q1; Num q2; Num 1] /\
      img = mj_render (mj_set_state (peg_sim MjState env) [Num q0; Num q1; Num q2; Num 1]
                         (mj_qvel (peg_sim MjState env))) /\
      peg_goal MjState env' = goal /\
      - (26 / 100) < goal < 26 / 100 /\
      - (PI / 2) < fst (fst x) < PI / 2 /\
      reach_counts MjState env' = 0%nat.
Proof.
  cbv zeta.
  destruct (get_state_returns_head nat stand_in_uniform stand_in_uniform_range 5%nat 0%nat
              ltac:(lia)) as (st & rest & _ & Hs).
  assert (Hg : get_goal nat stand_in_uniform (- (2 / 100)) (2 / 100) 5%nat
                 (snd (state_batch nat stand_in_uniform 0%nat)) = Some (0, 4%nat)).
  { cbn [state_batch stand_in_uniform snd].
    cbn [get_goal goal_batch stand_in_uniform Nat.eqb repeat find].
    replace ((- (2 / 100) + 2 / 100) / 2) with 0 by lra.
    rewrite good_goal_zero. reflexivity. }
  match goal with
  | |- exists _ _ _ _, ?lhs = _ /\ _ => remember lhs as res eqn:E
  end.
  destruct res as [[[[env' img] obs] g']|].
  - exists env', img, obs, g'. split; [reflexivity|].
    exact (peg_reset_model_sampled MjState (list Float) mj_qpos mj_qvel mj_set_state mj_render
             nat stand_in_uniform stand_in_rand mj_write_qpos mj_write_qvel ["x"; "goal"]%string
             (- (2 / 100)) (2 / 100)
             (mkPegEnv MjState true (peg_a_dict 1 true) false false false 0 10 3
                (mkMj [Num 0; Num 0; Num 0; Num 0] [Num 0; Num 0; Num 0; Num 0]))
             5%nat 0%nat env' img obs g' (eq_sym E)).
  - exfalso. unfold peg_reset_model in E. rewrite Hs, Hg in E.
    destruct st as [[x0 x1] x2]. cbn in E. discriminate.
Defined.
